(** * ASCHIP-APP: the live-session hook ([src/hooks/useLiveSession.ts])

    A shallow embedding of the React hook [useLiveSession]: the state the
    hook keeps (React state, refs, the observer's teaching mode), its
    callbacks ([stopAudioProcessing], [stopPlayback], [disconnect],
    [connect] and the transport callbacks [onopen], [onmessage],
    [onclose], [onerror], plus the per-segment [onended] and the capture
    callback [onaudioprocess]) and the properties of the specification
    that concern them.

    Conventions of the embedding.
    - JavaScript numbers that measure time (the output clock, the playback
      cursor, buffer durations) are rationals [Q]; the only operations the
      hook performs on them are [<], assignment and [+=].
    - Each callback runs to completion as one step: the hook is driven by
      a single event loop, and the [await]s inside [connect] and
      [onmessage] are taken to resume before the next event is delivered.
    - The capture callback [onaudioprocess] is taken after the
      floating-point work on the frame (level, 16-bit encoding).
    - What the hook does to the outside world (audio graph, transport,
      console, mode observer) is recorded as a list of [Effect]s.  A
      reaction registered on a promise ([.then], [.catch]) runs after the
      current callback returns; its effects are recorded under [Later].
    - Exceptions are explicit: a computation returns or throws, and
      [try_catch] is the [try { } catch { }] of the source. *)

From Stdlib Require Import ZArith QArith Lqa Ascii String.
From stdpp Require Import base list strings gmap pretty.

(** ** Data model ([types.ts]) *)

Inductive TeachingMode := CONVERSATION | CORRECTION | EXPLANATION | IDLE.

(** The string value of each member of the enum. *)
Definition TeachingMode_value (m : TeachingMode) : string :=
  match m with
  | CONVERSATION => "Conversation Mode"
  | CORRECTION => "Correction Mode"
  | EXPLANATION => "Explanation Mode"
  | IDLE => "Ready to Start"
  end.

(** [Object.values(TeachingMode)], in declaration order. *)
Definition TeachingMode_members : list TeachingMode :=
  [CONVERSATION; CORRECTION; EXPLANATION; IDLE].

Definition TeachingMode_values : list string :=
  TeachingMode_value <$> TeachingMode_members.

(** The member whose value is the string [v], when
    [Object.values(TeachingMode).includes(v)]. *)
Definition TeachingMode_of_value (v : string) : option TeachingMode :=
  List.find (fun m => String.eqb (TeachingMode_value m) v) TeachingMode_members.

Inductive Role := user | model.

#[global] Instance Role_eq_dec : EqDecision Role.
Proof. solve_decision. Defined.

#[global] Instance TeachingMode_eq_dec : EqDecision TeachingMode.
Proof. solve_decision. Defined.

(** [ChatMessage]; [isFinal] is an optional field, [timestamp] a [Date]
    kept as milliseconds. *)
Record ChatMessage := mkChatMessage {
  id : string;
  role : Role;
  text : string;
  timestamp : Z;
  isFinal : option bool
}.

(** JavaScript truthiness of the optional [isFinal] field. *)
Definition isFinal_truthy (m : ChatMessage) : bool :=
  match isFinal m with
  | Some true => true
  | _ => false
  end.

(** ** Audio buffers and the decoding helpers ([utils/audioUtils]) *)

(** An [AudioBuffer] with one channel.  Its [duration] is the number of
    sample frames over the sample rate. *)
Record AudioBuffer := mkAudioBuffer {
  channelData : list Q;
  bufferSampleRate : positive
}.

Definition duration (b : AudioBuffer) : Q :=
  Z.of_nat (length (channelData b)) # bufferSampleRate b.

(** Index of a character in the base64 alphabet. *)
Definition b64_index (c : ascii) : option Z :=
  let n := Z.of_N (Ascii.N_of_ascii c) in
  if (65 <=? n)%Z && (n <=? 90)%Z then Some (n - 65)%Z
  else if (97 <=? n)%Z && (n <=? 122)%Z then Some (n - 71)%Z
  else if (48 <=? n)%Z && (n <=? 57)%Z then Some (n + 4)%Z
  else if (n =? 43)%Z then Some 62%Z
  else if (n =? 47)%Z then Some 63%Z
  else None.

Definition b64_pad : ascii := "="%char.

(** The bytes of one group of four characters; padding is accepted in
    the last group only. *)
Definition b64_group (a b c d : ascii) (last_group : bool) : option (list Z) :=
  x ← b64_index a;
  y ← b64_index b;
  let b0 := (x * 4 + y / 16)%Z in
  if bool_decide (d = b64_pad) then
    if negb last_group then None
    else if bool_decide (c = b64_pad) then Some [b0]
    else z ← b64_index c; Some [b0; ((y mod 16) * 16 + z / 4)%Z]
  else
    z ← b64_index c;
    w ← b64_index d;
    Some [b0; ((y mod 16) * 16 + z / 4)%Z; ((z mod 4) * 64 + w)%Z].

Fixpoint b64_groups (cs : list ascii) : option (list Z) :=
  match cs with
  | [] => Some []
  | a :: b :: c :: d :: rest =>
      g ← b64_group a b c d (bool_decide (rest = []));
      r ← b64_groups rest;
      Some (g ++ r)
  | _ => None
  end.

(** Modelled from the spec: [base64ToBytes] of [utils/audioUtils], which is
    not among the sources.  The spec calls it the inverse of a reversible
    binary-to-text transport encoding and names the encoding base64; this
    is the standard padded base64 decoder, which fails ([None]) on text
    that is not base64. *)
Definition base64ToBytes (s : string) : option (list Z) :=
  b64_groups (list_ascii_of_string s).

(** Signed 16-bit little-endian samples of a byte sequence of even
    length. *)
Fixpoint pcm16le (bytes : list Z) : option (list Z) :=
  match bytes with
  | [] => Some []
  | lo :: hi :: rest =>
      let u := (lo + 256 * hi)%Z in
      let v := if (32768 <=? u)%Z then (u - 65536)%Z else u in
      r ← pcm16le rest; Some (v :: r)
  | _ => None
  end.

(** Modelled from the spec: [decodeAudioData] of [utils/audioUtils], which
    is not among the sources.  It reads the bytes as signed 16-bit
    little-endian mono PCM, normalises the samples to [-1,1], tags the
    buffer with the target sample rate, and fails when the byte length is
    not a multiple of 2. *)
Definition decodeAudioData (bytes : list Z) (sampleRate : positive)
  : option AudioBuffer :=
  samples ← pcm16le bytes;
  Some {| channelData := (fun v => v # 32768) <$> samples;
          bufferSampleRate := sampleRate |}.

(** The decoding pipeline as [onmessage] calls it:
    [decodeAudioData(base64ToBytes(base64Audio), ctx, 24000)];
    [None] when either call throws. *)
Definition decode_payload (base64Audio : string) : option AudioBuffer :=
  bytes ← base64ToBytes base64Audio;
  decodeAudioData bytes 24000.

(** ** Inbound messages ([LiveServerMessage] of the transport library)

    Only the fields the hook reads.  The hook iterates
    [message.toolCall.functionCalls] and reads [fc.args.mode] without a
    guard, so the call list and the argument object are always present
    here; every field it reads through [?.] is optional. *)

Record FunctionCall := mkFunctionCall {
  fc_id : option string;
  fc_name : option string;
  fc_args : gmap string string
}.

Record ToolCall := mkToolCall { functionCalls : list FunctionCall }.

Record Transcription := mkTranscription { tx_text : option string }.

Record Blob := mkBlob { data : option string }.
Record Part := mkPart { inlineData : option Blob }.
Record Content := mkContent { parts : option (list Part) }.

Record ServerContent := mkServerContent {
  inputTranscription : option Transcription;
  outputTranscription : option Transcription;
  turnComplete : bool;
  interrupted : bool;
  modelTurn : option Content
}.

Record LiveServerMessage := mkLiveServerMessage {
  toolCall : option ToolCall;
  serverContent : option ServerContent
}.

(** A string is truthy when it is defined and not empty. *)
Definition truthy (o : option string) : option string :=
  match o with
  | Some s => if bool_decide (s = "") then None else Some s
  | None => None
  end.

Definition is_truthy (o : option string) : bool :=
  match truthy o with
  | Some _ => true
  | None => false
  end.

(** ** Handles of the browser and of the transport *)

Record AudioContext := mkAudioContext { sampleRate : Z }.
Record MediaStream := mkMediaStream { getTracks : list nat }.
Record MediaStreamAudioSourceNode := mkMediaStreamSource { mediaStream : MediaStream }.
Record ScriptProcessorNode := mkScriptProcessor { bufferSize : Z }.

(** An [AudioBufferSourceNode] is identified by the order of creation. *)
Definition SourceId := nat.

(** The session object a fulfilled connection promise carries. *)
Record Session := mkSession {
  has_close : bool;      (* typeof session.close === 'function' *)
  close_throws : bool    (* session.close() throws *)
}.

(** How the promise returned by [ai.live.connect] settles. *)
Inductive SessionPromise :=
  | Fulfilled (session : option Session)
  | Rejected
  | Pending.

(** ** State of the hook *)

#[projections(primitive)]
Record State := mkState {
  (* React state *)
  isConnected : bool;
  isSpeaking : bool;
  volume : Q;
  error : option string;
  messages : list ChatMessage;
  (* refs *)
  inputContextRef : option AudioContext;
  outputContextRef : option AudioContext;
  sessionRef : option SessionPromise;
  inputSourceRef : option MediaStreamAudioSourceNode;
  processorRef : option ScriptProcessorNode;
  streamRef : option MediaStream;
  nextStartTimeRef : Q;
  scheduledSourcesRef : list SourceId;   (* a Set, in insertion order *)
  (* the mode held by the observer behind [onModeChange] *)
  currentMode : TeachingMode;
  (* number of buffer sources created so far *)
  nextSourceId : nat
}.

Definition set_isConnected (v : bool) (s : State) : State :=
  {| isConnected := v; isSpeaking := isSpeaking s; volume := volume s;
     error := error s; messages := messages s;
     inputContextRef := inputContextRef s;
     outputContextRef := outputContextRef s; sessionRef := sessionRef s;
     inputSourceRef := inputSourceRef s; processorRef := processorRef s;
     streamRef := streamRef s; nextStartTimeRef := nextStartTimeRef s;
     scheduledSourcesRef := scheduledSourcesRef s;
     currentMode := currentMode s; nextSourceId := nextSourceId s |}.

Definition set_isSpeaking (v : bool) (s : State) : State :=
  {| isConnected := isConnected s; isSpeaking := v; volume := volume s;
     error := error s; messages := messages s;
     inputContextRef := inputContextRef s;
     outputContextRef := outputContextRef s; sessionRef := sessionRef s;
     inputSourceRef := inputSourceRef s; processorRef := processorRef s;
     streamRef := streamRef s; nextStartTimeRef := nextStartTimeRef s;
     scheduledSourcesRef := scheduledSourcesRef s;
     currentMode := currentMode s; nextSourceId := nextSourceId s |}.

Definition set_volume (v : Q) (s : State) : State :=
  {| isConnected := isConnected s; isSpeaking := isSpeaking s; volume := v;
     error := error s; messages := messages s;
     inputContextRef := inputContextRef s;
     outputContextRef := outputContextRef s; sessionRef := sessionRef s;
     inputSourceRef := inputSourceRef s; processorRef := processorRef s;
     streamRef := streamRef s; nextStartTimeRef := nextStartTimeRef s;
     scheduledSourcesRef := scheduledSourcesRef s;
     currentMode := currentMode s; nextSourceId := nextSourceId s |}.

Definition set_error (v : option string) (s : State) : State :=
  {| isConnected := isConnected s; isSpeaking := isSpeaking s;
     volume := volume s; error := v; messages := messages s;
     inputContextRef := inputContextRef s;
     outputContextRef := outputContextRef s; sessionRef := sessionRef s;
     inputSourceRef := inputSourceRef s; processorRef := processorRef s;
     streamRef := streamRef s; nextStartTimeRef := nextStartTimeRef s;
     scheduledSourcesRef := scheduledSourcesRef s;
     currentMode := currentMode s; nextSourceId := nextSourceId s |}.

Definition set_messages (v : list ChatMessage) (s : State) : State :=
  {| isConnected := isConnected s; isSpeaking := isSpeaking s;
     volume := volume s; error := error s; messages := v;
     inputContextRef := inputContextRef s;
     outputContextRef := outputContextRef s; sessionRef := sessionRef s;
     inputSourceRef := inputSourceRef s; processorRef := processorRef s;
     streamRef := streamRef s; nextStartTimeRef := nextStartTimeRef s;
     scheduledSourcesRef := scheduledSourcesRef s;
     currentMode := currentMode s; nextSourceId := nextSourceId s |}.

Definition set_inputContextRef (v : option AudioContext) (s : State) : State :=
  {| isConnected := isConnected s; isSpeaking := isSpeaking s;
     volume := volume s; error := error s; messages := messages s;
     inputContextRef := v; outputContextRef := outputContextRef s;
     sessionRef := sessionRef s; inputSourceRef := inputSourceRef s;
     processorRef := processorRef s; streamRef := streamRef s;
     nextStartTimeRef := nextStartTimeRef s;
     scheduledSourcesRef := scheduledSourcesRef s;
     currentMode := currentMode s; nextSourceId := nextSourceId s |}.

Definition set_outputContextRef (v : option AudioContext) (s : State) : State :=
  {| isConnected := isConnected s; isSpeaking := isSpeaking s;
     volume := volume s; error := error s; messages := messages s;
     inputContextRef := inputContextRef s; outputContextRef := v;
     sessionRef := sessionRef s; inputSourceRef := inputSourceRef s;
     processorRef := processorRef s; streamRef := streamRef s;
     nextStartTimeRef := nextStartTimeRef s;
     scheduledSourcesRef := scheduledSourcesRef s;
     currentMode := currentMode s; nextSourceId := nextSourceId s |}.

Definition set_sessionRef (v : option SessionPromise) (s : State) : State :=
  {| isConnected := isConnected s; isSpeaking := isSpeaking s;
     volume := volume s; error := error s; messages := messages s;
     inputContextRef := inputContextRef s;
     outputContextRef := outputContextRef s; sessionRef := v;
     inputSourceRef := inputSourceRef s; processorRef := processorRef s;
     streamRef := streamRef s; nextStartTimeRef := nextStartTimeRef s;
     scheduledSourcesRef := scheduledSourcesRef s;
     currentMode := currentMode s; nextSourceId := nextSourceId s |}.

Definition set_inputSourceRef (v : option MediaStreamAudioSourceNode) (s : State) : State :=
  {| isConnected := isConnected s; isSpeaking := isSpeaking s;
     volume := volume s; error := error s; messages := messages s;
     inputContextRef := inputContextRef s;
     outputContextRef := outputContextRef s; sessionRef := sessionRef s;
     inputSourceRef := v; processorRef := processorRef s;
     streamRef := streamRef s; nextStartTimeRef := nextStartTimeRef s;
     scheduledSourcesRef := scheduledSourcesRef s;
     currentMode := currentMode s; nextSourceId := nextSourceId s |}.

Definition set_processorRef (v : option ScriptProcessorNode) (s : State) : State :=
  {| isConnected := isConnected s; isSpeaking := isSpeaking s;
     volume := volume s; error := error s; messages := messages s;
     inputContextRef := inputContextRef s;
     outputContextRef := outputContextRef s; sessionRef := sessionRef s;
     inputSourceRef := inputSourceRef s; processorRef := v;
     streamRef := streamRef s; nextStartTimeRef := nextStartTimeRef s;
     scheduledSourcesRef := scheduledSourcesRef s;
     currentMode := currentMode s; nextSourceId := nextSourceId s |}.

Definition set_streamRef (v : option MediaStream) (s : State) : State :=
  {| isConnected := isConnected s; isSpeaking := isSpeaking s;
     volume := volume s; error := error s; messages := messages s;
     inputContextRef := inputContextRef s;
     outputContextRef := outputContextRef s; sessionRef := sessionRef s;
     inputSourceRef := inputSourceRef s; processorRef := processorRef s;
     streamRef := v; nextStartTimeRef := nextStartTimeRef s;
     scheduledSourcesRef := scheduledSourcesRef s;
     currentMode := currentMode s; nextSourceId := nextSourceId s |}.

Definition set_nextStartTimeRef (v : Q) (s : State) : State :=
  {| isConnected := isConnected s; isSpeaking := isSpeaking s;
     volume := volume s; error := error s; messages := messages s;
     inputContextRef := inputContextRef s;
     outputContextRef := outputContextRef s; sessionRef := sessionRef s;
     inputSourceRef := inputSourceRef s; processorRef := processorRef s;
     streamRef := streamRef s; nextStartTimeRef := v;
     scheduledSourcesRef := scheduledSourcesRef s;
     currentMode := currentMode s; nextSourceId := nextSourceId s |}.

Definition set_scheduledSourcesRef (v : list SourceId) (s : State) : State :=
  {| isConnected := isConnected s; isSpeaking := isSpeaking s;
     volume := volume s; error := error s; messages := messages s;
     inputContextRef := inputContextRef s;
     outputContextRef := outputContextRef s; sessionRef := sessionRef s;
     inputSourceRef := inputSourceRef s; processorRef := processorRef s;
     streamRef := streamRef s; nextStartTimeRef := nextStartTimeRef s;
     scheduledSourcesRef := v; currentMode := currentMode s;
     nextSourceId := nextSourceId s |}.

Definition set_currentMode (v : TeachingMode) (s : State) : State :=
  {| isConnected := isConnected s; isSpeaking := isSpeaking s;
     volume := volume s; error := error s; messages := messages s;
     inputContextRef := inputContextRef s;
     outputContextRef := outputContextRef s; sessionRef := sessionRef s;
     inputSourceRef := inputSourceRef s; processorRef := processorRef s;
     streamRef := streamRef s; nextStartTimeRef := nextStartTimeRef s;
     scheduledSourcesRef := scheduledSourcesRef s; currentMode := v;
     nextSourceId := nextSourceId s |}.

Definition set_nextSourceId (v : nat) (s : State) : State :=
  {| isConnected := isConnected s; isSpeaking := isSpeaking s;
     volume := volume s; error := error s; messages := messages s;
     inputContextRef := inputContextRef s;
     outputContextRef := outputContextRef s; sessionRef := sessionRef s;
     inputSourceRef := inputSourceRef s; processorRef := processorRef s;
     streamRef := streamRef s; nextStartTimeRef := nextStartTimeRef s;
     scheduledSourcesRef := scheduledSourcesRef s;
     currentMode := currentMode s; nextSourceId := v |}.

(** The state of a freshly mounted hook. *)
Definition initialState : State :=
  {| isConnected := false; isSpeaking := false; volume := 0; error := None;
     messages := []; inputContextRef := None; outputContextRef := None;
     sessionRef := None; inputSourceRef := None; processorRef := None;
     streamRef := None; nextStartTimeRef := 0; scheduledSourcesRef := [];
     currentMode := IDLE; nextSourceId := 0 |}.

(** ** Effects and exceptions *)

Inductive Effect :=
  | ProcessorDisconnect
  | InputSourceDisconnect
  | TrackStop (track : nat)
  | ContextClose (ctx : AudioContext)
  | NewAudioContext (ctx : AudioContext)
  | GetUserMedia
  | LiveConnect
  | SessionClose
  | SendToolResponse (fid fname : option string) (result : string)
  | SendRealtimeInput (mimeType base64Data : string)
  | SourceStart (source : SourceId) (when : Q) (dur : Q)
  | SourceStop (source : SourceId)
  | ModeChange (mode : TeachingMode)
  | ConsoleLog (msg : string)
  | ConsoleError (msg : string)
  | Later (e : Effect).

Inductive Exn := Error (msg : string).

Inductive Outcome (A : Type) :=
  | Return (a : A)
  | Throw (e : Exn).
Arguments Return {A} a.
Arguments Throw {A} e.

(** A computation of the hook: from a state to the state it leaves, the
    effects it performed and how it ended. *)
Definition M (A : Type) : Type := State -> State * list Effect * Outcome A.

#[global] Instance M_ret : MRet M := fun A a s => (s, [], Return a).

#[global] Instance M_bind : MBind M := fun A B k m s =>
  match m s with
  | (s1, t1, Return a) =>
      match k a s1 with (s2, t2, r) => (s2, t1 ++ t2, r) end
  | (s1, t1, Throw e) => (s1, t1, Throw e)
  end.

Definition gets {A} (f : State -> A) : M A := fun s => (s, [], Return (f s)).
Definition modify (f : State -> State) : M unit := fun s => (f s, [], Return tt).
Definition emit (e : Effect) : M unit := fun s => (s, [e], Return tt).
Definition throw {A} (e : Exn) : M A := fun s => (s, [], Throw e).

(** [try { m } catch (e) { h e }]: what [m] did before throwing stays. *)
Definition try_catch {A} (m : M A) (h : Exn -> M A) : M A := fun s =>
  match m s with
  | (s1, t1, Throw e) =>
      match h e s1 with (s2, t2, r) => (s2, t1 ++ t2, r) end
  | r => r
  end.

Definition when (b : bool) (m : M unit) : M unit :=
  if b then m else mret tt.

(** [xs.forEach(f)] and [for (const x of xs) f(x)]. *)
Fixpoint forEach {A} (xs : list A) (f : A -> M unit) : M unit :=
  match xs with
  | [] => mret tt
  | x :: rest => f x ;; forEach rest f
  end.

(** Effects of a promise reaction, which runs after the caller returns. *)
Definition later (m : M unit) : M unit := fun s =>
  match m s with (s1, t1, r) => (s1, Later <$> t1, Return tt) end.

Definition state_of {A} (r : State * list Effect * Outcome A) : State := r.1.1.
Definition trace_of {A} (r : State * list Effect * Outcome A) : list Effect := r.1.2.
Definition outcome_of {A} (r : State * list Effect * Outcome A) : Outcome A := r.2.

(** ** The hook *)

Definition whenSome {A} (o : option A) (f : A -> M unit) : M unit :=
  match o with
  | Some a => f a
  | None => mret tt
  end.

(** Calling an [async] function without awaiting it: its synchronous part
    runs, and a throw only rejects the promise nobody holds. *)
Definition unawaited (m : M unit) : M unit := fun s =>
  match m s with (s1, t1, _) => (s1, t1, Return tt) end.

(** [p.then(f)]: [f] runs once [p] is fulfilled. *)
Definition promise_then (p : SessionPromise) (f : option Session -> M unit)
  : M unit :=
  later (match p with
         | Fulfilled v => f v
         | Rejected | Pending => mret tt
         end).

(** [p.then(f).catch(h)]: [h] handles a rejection of [p] and a throw of
    [f]. *)
Definition promise_then_catch (p : SessionPromise)
    (f : option Session -> M unit) (h : Exn -> M unit) : M unit :=
  later (match p with
         | Fulfilled v => try_catch (f v) h
         | Rejected => h (Error "rejected")
         | Pending => mret tt
         end).

(** What [ctx.currentTime], [Date.now()] and [new Date()] read while one
    message is handled. *)
Record Clock := mkClock {
  currentTime : Q;
  dateNow : Z;
  newDate : Z
}.

(** What the environment answers during one [connect]. *)
Record ConnectEnv := mkConnectEnv {
  (* [None]: [process] is not defined; [Some k]: the value of
     [process.env.API_KEY] *)
  process_env_API_KEY : option (option string);
  (* [None]: [getUserMedia] rejects *)
  getUserMedia : option MediaStream;
  (* the promise [ai.live.connect] returns *)
  live_connect : SessionPromise
}.

(** Membership operations of the [Set] of scheduled sources. *)
Definition set_add (x : SourceId) (l : list SourceId) : list SourceId :=
  if bool_decide (x ∈ l) then l else l ++ [x].

Definition set_delete (x : SourceId) (l : list SourceId) : list SourceId :=
  List.filter (fun y => negb (Nat.eqb y x)) l.

(** *** The updaters passed to [setMessages] in [onmessage] *)

(** [newMsgs.slice(0, -1)] *)
Definition slice_0_m1 (l : list ChatMessage) : list ChatMessage :=
  take (length l - 1) l.

Definition with_text (m : ChatMessage) (t : string) : ChatMessage :=
  {| id := id m; role := role m; text := t; timestamp := timestamp m;
     isFinal := isFinal m |}.

Definition with_isFinal (m : ChatMessage) (f : bool) : ChatMessage :=
  {| id := id m; role := role m; text := text m; timestamp := timestamp m;
     isFinal := Some f |}.

(** [lastMsg && lastMsg.role === r && !lastMsg.isFinal] *)
Definition open_with_role (r : Role) (lastMsg : option ChatMessage) : bool :=
  match lastMsg with
  | Some m => bool_decide (role m = r) && negb (isFinal_truthy m)
  | None => false
  end.

Definition role_suffix (r : Role) : string :=
  match r with user => "-user" | model => "-model" end.

Definition newEntry (clock : Clock) (r : Role) (t : string) : ChatMessage :=
  {| id := pretty (dateNow clock) +:+ role_suffix r; role := r; text := t;
     timestamp := newDate clock; isFinal := Some false |}.

(** One of the two symmetric branches of the transcription updater. *)
Definition mergeDelta (clock : Clock) (r : Role) (tx : string)
    (newMsgs : list ChatMessage) : list ChatMessage :=
  let lastMsg := last newMsgs in
  match lastMsg with
  | Some m =>
      if open_with_role r lastMsg
      then slice_0_m1 newMsgs ++ [with_text m (text m +:+ tx)]
      else newMsgs ++ [newEntry clock r tx]
  | None => newMsgs ++ [newEntry clock r tx]
  end.

(** The updater of the [if (inputTx || outputTx)] block. *)
Definition transcriptionUpdater (clock : Clock) (inputTx outputTx : option string)
    (prev : list ChatMessage) : list ChatMessage :=
  match truthy inputTx with
  | Some tx => mergeDelta clock user tx prev
  | None =>
      match truthy outputTx with
      | Some tx => mergeDelta clock model tx prev
      | None => prev
      end
  end.

(** The updater of the [turnComplete] block. *)
Definition turnCompleteUpdater (prev : list ChatMessage) : list ChatMessage :=
  match last prev with
  | Some m =>
      if negb (isFinal_truthy m)
      then slice_0_m1 prev ++ [with_isFinal m true]
      else prev
  | None => prev
  end.

(** The updater of the [interrupted] block. *)
Definition interruptedUpdater (prev : list ChatMessage) : list ChatMessage :=
  match last prev with
  | Some m =>
      if negb (isFinal_truthy m) && bool_decide (role m = model)
      then slice_0_m1 prev ++ [with_text (with_isFinal m true) (text m +:+ " ...")]
      else prev
  | None => prev
  end.

(** [message.serverContent?.modelTurn?.parts?.[0]?.inlineData?.data] *)
Definition base64Audio_of (message : LiveServerMessage) : option string :=
  sc ← serverContent message;
  mt ← modelTurn sc;
  ps ← parts mt;
  p ← ps !! 0%nat;
  b ← inlineData p;
  data b.

(** [message.serverContent?.interrupted] *)
Definition interrupted_of (message : LiveServerMessage) : bool :=
  match serverContent message with
  | Some sc => interrupted sc
  | None => false
  end.

Section Hook.

(** [decodeAudioData(base64ToBytes(b64), ctx, 24000)], [None] when it
    throws; [decode_payload] is the instance that follows the spec. *)
Variable decode : string -> option AudioBuffer.

(** Whether [source.stop()] throws for a given source. *)
Variable stop_throws : SourceId -> bool.

Definition setIsConnected (v : bool) : M unit := modify (set_isConnected v).
Definition setIsSpeaking (v : bool) : M unit := modify (set_isSpeaking v).
Definition setVolume (v : Q) : M unit := modify (set_volume v).
Definition setError (v : option string) : M unit := modify (set_error v).
Definition setMessages (f : list ChatMessage -> list ChatMessage) : M unit :=
  modify (fun s => set_messages (f (messages s)) s).

(** The [onModeChange] prop: the observer stores the mode it is given. *)
Definition onModeChange (mode : TeachingMode) : M unit :=
  emit (ModeChange mode) ;; modify (set_currentMode mode).

(** [track => track.stop()] *)
Definition stopTrack (track : nat) : M unit := emit (TrackStop track).

Definition stopAudioProcessing : M unit :=
  processor ← gets processorRef;
  whenSome processor (fun _ =>
    emit ProcessorDisconnect ;; modify (set_processorRef None)) ;;
  inputSource ← gets inputSourceRef;
  whenSome inputSource (fun _ =>
    emit InputSourceDisconnect ;; modify (set_inputSourceRef None)) ;;
  stream ← gets streamRef;
  whenSome stream (fun st =>
    forEach (getTracks st) stopTrack ;;
    modify (set_streamRef None)) ;;
  inputContext ← gets inputContextRef;
  whenSome inputContext (fun ctx =>
    emit (ContextClose ctx) ;; modify (set_inputContextRef None)).

(** [source.stop()] *)
Definition source_stop (source : SourceId) : M unit :=
  emit (SourceStop source) ;;
  if stop_throws source then throw (Error "InvalidStateError") else mret tt.

(** [source => { try { source.stop(); } catch (e) {} }] *)
Definition stopSource (source : SourceId) : M unit :=
  try_catch (source_stop source) (fun _ => mret tt).

Definition stopPlayback : M unit :=
  sources ← gets scheduledSourcesRef;
  forEach sources stopSource ;;
  modify (set_scheduledSourcesRef []) ;;
  modify (set_nextStartTimeRef 0) ;;
  setIsSpeaking false.

(** [session.close()] *)
Definition session_close (session : Session) : M unit :=
  emit SessionClose ;;
  if close_throws session then throw (Error "close failed") else mret tt.

Definition disconnect : M unit :=
  stopAudioProcessing ;;
  stopPlayback ;;
  sessionPromise ← gets sessionRef;
  whenSome sessionPromise (fun p =>
    promise_then_catch p
      (fun session =>
         match session with
         | Some sess => if has_close sess then session_close sess else mret tt
         | None => mret tt
         end)
      (fun _ => emit (ConsoleError "Error closing session"))) ;;
  outputContext ← gets outputContextRef;
  whenSome outputContext (fun ctx =>
    emit (ContextClose ctx) ;; modify (set_outputContextRef None)) ;;
  modify (set_sessionRef None) ;;
  setIsConnected false ;;
  onModeChange IDLE ;;
  setVolume 0.

(** *** Transport callbacks installed by [connect] *)

Definition onopen : M unit :=
  emit (ConsoleLog "Connection opened") ;;
  setIsConnected true ;;
  onModeChange CONVERSATION.

(** The body of the loop over [message.toolCall.functionCalls]. *)
Definition handleFunctionCall (sessionPromise : SessionPromise)
    (fc : FunctionCall) : M unit :=
  if bool_decide (fc_name fc = Some "setTeachingMode") then
    let newMode := fc_args fc !! "mode" in
    whenSome (newMode ≫= TeachingMode_of_value) onModeChange ;;
    promise_then sessionPromise (fun session =>
      match session with
      | Some _ => emit (SendToolResponse (fc_id fc) (fc_name fc) "Mode updated")
      | None => throw (Error "TypeError")
      end)
  else mret tt.

(** The [try] block of the audio branch. *)
Definition scheduleAudio (base64Audio : string) : M unit :=
  audioBuffer ← (match decode base64Audio with
                 | Some b => mret b
                 | None => throw (Error "decode failed")
                 end);
  source ← gets nextSourceId;
  modify (fun s => set_nextSourceId (S (nextSourceId s)) s) ;;
  start ← gets nextStartTimeRef;
  emit (SourceStart source start (duration audioBuffer)) ;;
  modify (fun s =>
    set_nextStartTimeRef (nextStartTimeRef s + duration audioBuffer)%Q s) ;;
  modify (fun s =>
    set_scheduledSourcesRef (set_add source (scheduledSourcesRef s)) s).

Definition handleAudio (clock : Clock) (message : LiveServerMessage) : M unit :=
  outputContext ← gets outputContextRef;
  match truthy (base64Audio_of message), outputContext with
  | Some base64Audio, Some ctx =>
      setIsSpeaking true ;;
      nextStartTime ← gets nextStartTimeRef;
      when (if Qlt_le_dec nextStartTime (currentTime clock) then true else false)
        (modify (set_nextStartTimeRef (currentTime clock))) ;;
      try_catch (scheduleAudio base64Audio)
        (fun _ => emit (ConsoleError "Audio decoding error"))
  | _, _ => mret tt
  end.

Definition handleServerContent (clock : Clock) (sc : ServerContent) : M unit :=
  let inputTx := inputTranscription sc ≫= tx_text in
  let outputTx := outputTranscription sc ≫= tx_text in
  when (is_truthy inputTx || is_truthy outputTx)
    (setMessages (transcriptionUpdater clock inputTx outputTx)) ;;
  when (turnComplete sc) (setMessages turnCompleteUpdater) ;;
  when (interrupted sc) (setMessages interruptedUpdater).

Definition onmessage (sessionPromise : SessionPromise) (clock : Clock)
    (message : LiveServerMessage) : M unit :=
  whenSome (toolCall message) (fun tc =>
    forEach (functionCalls tc) (handleFunctionCall sessionPromise)) ;;
  whenSome (serverContent message) (handleServerContent clock) ;;
  handleAudio clock message ;;
  when (interrupted_of message) stopPlayback.

Definition onclose : M unit :=
  emit (ConsoleLog "Connection closed") ;;
  unawaited disconnect.

Definition onerror : M unit :=
  emit (ConsoleError "Connection error") ;;
  setError (Some "Connection failed. Please try again.") ;;
  unawaited disconnect.

(** The [onended] handler of a scheduled source. *)
Definition onended (source : SourceId) : M unit :=
  modify (fun s =>
    set_scheduledSourcesRef (set_delete source (scheduledSourcesRef s)) s) ;;
  sources ← gets scheduledSourcesRef;
  when (bool_decide (length sources = 0%nat)) (setIsSpeaking false).

(** The [onaudioprocess] handler of the capture processor.  The display
    level [Math.min(1, rms * 5)] of the frame and the base64 text of its
    16-bit encoding are floating-point and codec work done on the frame;
    the handler is taken at the point where both are known. *)
Definition onaudioprocess (sessionPromise : SessionPromise) (level : Q)
    (base64Data : string) : M unit :=
  setVolume level ;;
  promise_then sessionPromise (fun session =>
    match session with
    | Some _ => emit (SendRealtimeInput "audio/pcm;rate=16000" base64Data)
    | None => throw (Error "TypeError")
    end).

(** *** [connect] *)

Definition exn_message (e : Exn) : string :=
  match e with Error msg => msg end.

(** [apiKey = process.env.API_KEY || ''] under its own [try]. *)
Definition readApiKey (env : ConnectEnv) : M string :=
  try_catch
    (match process_env_API_KEY env with
     | Some k => mret (default "" (truthy k))
     | None => throw (Error "process is not defined")
     end)
    (fun _ => emit (ConsoleError "process.env is not defined") ;; mret "").

(** The [try] block of [connect]. *)
Definition connect_body (env : ConnectEnv) : M unit :=
  setError None ;;
  setMessages (fun _ => []) ;;
  apiKey ← readApiKey env;
  (if bool_decide (apiKey = "")
   then throw (Error "API Key is missing. Ensure process.env.API_KEY is set.")
   else mret tt) ;;
  emit (NewAudioContext (mkAudioContext 16000)) ;;
  modify (set_inputContextRef (Some (mkAudioContext 16000))) ;;
  emit (NewAudioContext (mkAudioContext 24000)) ;;
  modify (set_outputContextRef (Some (mkAudioContext 24000))) ;;
  emit GetUserMedia ;;
  stream ← (match getUserMedia env with
            | Some st => mret st
            | None => throw (Error "NotAllowedError")
            end);
  modify (set_streamRef (Some stream)) ;;
  emit LiveConnect ;;
  modify (set_sessionRef (Some (live_connect env))) ;;
  inputContext ← gets inputContextRef;
  streamNow ← gets streamRef;
  match inputContext, streamNow with
  | Some ctx, Some st =>
      modify (set_inputSourceRef (Some (mkMediaStreamSource st))) ;;
      modify (set_processorRef (Some (mkScriptProcessor 4096)))
  | _, _ => mret tt
  end.

Definition connect (env : ConnectEnv) : M unit :=
  try_catch (connect_body env)
    (fun e =>
       emit (ConsoleError (exn_message e)) ;;
       setError (Some "Failed to initialize session. API Key may be missing.") ;;
       unawaited disconnect).

(** *** The events that drive the hook *)

Inductive Event :=
  | Connect (env : ConnectEnv)
  | Disconnect
  | OnOpen
  | OnMessage (sessionPromise : SessionPromise) (clock : Clock)
              (message : LiveServerMessage)
  | OnClose
  | OnError
  | OnEnded (source : SourceId)
  | OnAudioProcess (sessionPromise : SessionPromise) (level : Q)
                   (base64Data : string).

Definition handle (e : Event) : M unit :=
  match e with
  | Connect env => connect env
  | Disconnect => disconnect
  | OnOpen => onopen
  | OnMessage p clock message => onmessage p clock message
  | OnClose => onclose
  | OnError => onerror
  | OnEnded source => onended source
  | OnAudioProcess p level base64Data => onaudioprocess p level base64Data
  end.

(** Events handled one after the other; a callback that rejects does
    not stop the event loop. *)
Fixpoint run (es : list Event) (s : State) : State * list Effect :=
  match es with
  | [] => (s, [])
  | e :: rest =>
      match handle e s with
      | (s1, t1, _) =>
          match run rest s1 with (s2, t2) => (s2, t1 ++ t2) end
      end
  end.

End Hook.

(** ** Vocabulary of the properties *)

(** *** Teardown *)

(** What releasing the capture side does, resource by resource; a ref
    that holds nothing contributes nothing. *)
Definition capture_effects (s : State) : list Effect :=
  (if processorRef s is Some _ then [ProcessorDisconnect] else []) ++
  (if inputSourceRef s is Some _ then [InputSourceDisconnect] else []) ++
  (if streamRef s is Some st then TrackStop <$> getTracks st else []) ++
  (if inputContextRef s is Some ctx then [ContextClose ctx] else []).

Definition capture_released (s : State) : State :=
  set_inputContextRef None (set_streamRef None
    (set_inputSourceRef None (set_processorRef None s))).

(** Closing the transport: the close is attempted once the connection
    promise is fulfilled with an object that has a [close] method; a
    rejected promise and a throwing [close] end in the console. *)
Definition transport_close_effects (p : option SessionPromise) : list Effect :=
  match p with
  | Some (Fulfilled (Some sess)) =>
      if has_close sess then
        if close_throws sess
        then [Later SessionClose; Later (ConsoleError "Error closing session")]
        else [Later SessionClose]
      else []
  | Some Rejected => [Later (ConsoleError "Error closing session")]
  | Some (Fulfilled None) | Some Pending | None => []
  end.

Definition teardown_effects (s : State) : list Effect :=
  capture_effects s ++
  (SourceStop <$> scheduledSourcesRef s) ++
  transport_close_effects (sessionRef s) ++
  (if outputContextRef s is Some ctx then [ContextClose ctx] else []) ++
  [ModeChange IDLE].

(** The state every teardown ends in: nothing held, nothing scheduled,
    disconnected, mode Idle; the error message and the transcript stay. *)
Definition torn_down (s : State) : State :=
  {| isConnected := false; isSpeaking := false; volume := 0;
     error := error s; messages := messages s;
     inputContextRef := None; outputContextRef := None; sessionRef := None;
     inputSourceRef := None; processorRef := None; streamRef := None;
     nextStartTimeRef := 0; scheduledSourcesRef := [];
     currentMode := IDLE; nextSourceId := nextSourceId s |}.

(** The resources a session holds: the two audio contexts, the
    microphone stream, the transport and the capture nodes. *)
Definition resources (s : State) :=
  (inputContextRef s, outputContextRef s, streamRef s, sessionRef s,
   inputSourceRef s, processorRef s).

Definition no_resources :
  option AudioContext * option AudioContext * option MediaStream *
  option SessionPromise * option MediaStreamAudioSourceNode *
  option ScriptProcessorNode :=
  (None, None, None, None, None, None).

Definition missing_key_message : string :=
  "API Key is missing. Ensure process.env.API_KEY is set.".

Definition init_failed_message : string :=
  "Failed to initialize session. API Key may be missing.".

(** Effects that acquire a resource or reach the network. *)
Definition acquires (e : Effect) : bool :=
  match e with
  | NewAudioContext _ | GetUserMedia | LiveConnect => true
  | _ => false
  end.

(** *** Playback *)

(** The segments a trace schedules, each with its start time and its
    duration, in scheduling order. *)
Definition starts (t : list Effect) : list (Q * Q) :=
  omap (fun e => if e is SourceStart _ w d then Some (w, d) else None) t.

(** The cursor after the snap to the output clock. *)
Definition snap (cursor now : Q) : Q :=
  if Qlt_le_dec cursor now then now else cursor.

(** A list of segments laid out from cursor [c] on, none before the end
    of its predecessor, the cursor ending at or before [c']. *)
Fixpoint chained_from (c : Q) (l : list (Q * Q)) (c' : Q) : Prop :=
  match l with
  | [] => (c <= c')%Q
  | (w, d) :: rest => (c <= w)%Q /\ (0 <= d)%Q /\ chained_from (w + d)%Q rest c'
  end.

(** *** Tool calls *)

Definition names_mode_tool (fc : FunctionCall) : bool :=
  bool_decide (fc_name fc = Some "setTeachingMode").

(** The mode a call asks for, when it is a recognized one. *)
Definition requested_mode (fc : FunctionCall) : option TeachingMode :=
  fc_args fc !! "mode" ≫= TeachingMode_of_value.

Definition apply_call (m : TeachingMode) (fc : FunctionCall) : TeachingMode :=
  if names_mode_tool fc then default m (requested_mode fc) else m.

Definition modes_after (fcs : list FunctionCall) (m : TeachingMode) : TeachingMode :=
  foldl apply_call m fcs.

(** The acknowledgments a trace sends on the transport. *)
Definition acks (t : list Effect)
  : list (option string * option string * string) :=
  omap (fun e => if e is Later (SendToolResponse i n r)
                 then Some (i, n, r) else None) t.

(** The notifications a trace gives to the mode observer. *)
Definition mode_changes (t : list Effect) : list TeachingMode :=
  omap (fun e => if e is ModeChange m then Some m else None) t.

Definition expected_acks (fcs : list FunctionCall)
  : list (option string * option string * string) :=
  (fun fc => (fc_id fc, fc_name fc, "Mode updated")) <$>
  List.filter names_mode_tool fcs.

Definition expected_mode_changes (fcs : list FunctionCall) : list TeachingMode :=
  omap requested_mode (List.filter names_mode_tool fcs).

(** *** Inbound events, one per message *)

Definition emptyContent : ServerContent :=
  {| inputTranscription := None; outputTranscription := None;
     turnComplete := false; interrupted := false; modelTurn := None |}.

(** A transcript delta: a message whose only content is a text fragment
    on the input side (role [user]) or the output side (role [model]). *)
Definition deltaMessage (r : Role) (t : string) : LiveServerMessage :=
  {| toolCall := None;
     serverContent := Some
       {| inputTranscription :=
            if r is user then Some (mkTranscription (Some t)) else None;
          outputTranscription :=
            if r is model then Some (mkTranscription (Some t)) else None;
          turnComplete := false; interrupted := false; modelTurn := None |} |}.

Definition turnCompleteMessage : LiveServerMessage :=
  {| toolCall := None;
     serverContent := Some
       {| inputTranscription := None; outputTranscription := None;
          turnComplete := true; interrupted := false; modelTurn := None |} |}.

Definition inputTx_of (sc : ServerContent) : option string :=
  truthy (inputTranscription sc ≫= tx_text).

Definition outputTx_of (sc : ServerContent) : option string :=
  truthy (outputTranscription sc ≫= tx_text).

(** The message with its output-side fragment removed. *)
Definition without_output (message : LiveServerMessage) : LiveServerMessage :=
  {| toolCall := toolCall message;
     serverContent :=
       (fun sc => {| inputTranscription := inputTranscription sc;
                     outputTranscription := None;
                     turnComplete := turnComplete sc;
                     interrupted := interrupted sc;
                     modelTurn := modelTurn sc |}) <$> serverContent message |}.

(** The credential [connect] ends up with. *)
Definition credential (env : ConnectEnv) : option string :=
  truthy (mjoin (process_env_API_KEY env)).

(** *** What each phase of [onmessage] leaves *)

Definition toolCalls_effects (p : SessionPromise) (fcs : list FunctionCall)
  : list Effect :=
  fcs ≫= (fun fc =>
    if names_mode_tool fc then
      (if requested_mode fc is Some m then [ModeChange m] else []) ++
      (if p is Fulfilled (Some _)
       then [Later (SendToolResponse (fc_id fc) (fc_name fc) "Mode updated")]
       else [])
    else []).

Definition log_after (clock : Clock) (sc : ServerContent)
    (l : list ChatMessage) : list ChatMessage :=
  let inputTx := inputTranscription sc ≫= tx_text in
  let outputTx := outputTranscription sc ≫= tx_text in
  let l1 := if is_truthy inputTx || is_truthy outputTx
            then transcriptionUpdater clock inputTx outputTx l else l in
  let l2 := if turnComplete sc then turnCompleteUpdater l1 else l1 in
  if interrupted sc then interruptedUpdater l2 else l2.

Definition stopped (s : State) : State :=
  set_isSpeaking false (set_nextStartTimeRef 0 (set_scheduledSourcesRef [] s)).

Section Phases.

Variable decode : string -> option AudioBuffer.

Definition audio_phase (clock : Clock) (message : LiveServerMessage)
    (s : State) : State * list Effect :=
  match truthy (base64Audio_of message), outputContextRef s with
  | Some b64, Some _ =>
      let c := snap (nextStartTimeRef s) (currentTime clock) in
      match decode b64 with
      | Some buf =>
          (set_scheduledSourcesRef
             (set_add (nextSourceId s) (scheduledSourcesRef s))
             (set_nextStartTimeRef (c + duration buf)%Q
                (set_nextSourceId (S (nextSourceId s))
                   (set_isSpeaking true s))),
           [SourceStart (nextSourceId s) c (duration buf)])
      | None =>
          (set_nextStartTimeRef c (set_isSpeaking true s),
           [ConsoleError "Audio decoding error"])
      end
  | _, _ => (s, [])
  end.

Definition after_content (clock : Clock) (message : LiveServerMessage)
    (fcs : list FunctionCall) (s : State) : State :=
  let s1 := set_currentMode (modes_after fcs (currentMode s)) s in
  match serverContent message with
  | Some sc => set_messages (log_after clock sc (messages s1)) s1
  | None => s1
  end.

Definition calls_of (message : LiveServerMessage) : list FunctionCall :=
  if toolCall message is Some tc then functionCalls tc else [].

Definition message_phase (p : SessionPromise) (clock : Clock)
    (message : LiveServerMessage) (s : State) : State * list Effect :=
  let fcs := calls_of message in
  let s2 := after_content clock message fcs s in
  let a := audio_phase clock message s2 in
  if interrupted_of message
  then (stopped a.1,
        toolCalls_effects p fcs ++ a.2 ++ (SourceStop <$> scheduledSourcesRef a.1))
  else (a.1, toolCalls_effects p fcs ++ a.2).

(** Events that neither stop playback nor tear the session down. *)
Definition no_stop (e : Event) : bool :=
  match e with
  | OnMessage _ _ message => negb (interrupted_of message)
  | OnOpen | OnEnded _ | OnAudioProcess _ _ _ => true
  | Connect _ | Disconnect | OnClose | OnError => false
  end.

(** Events after which a true speaking state is still true: anything but
    the end of a segment, an interruption and a teardown ([connect] tears
    down when it fails). *)
Definition keeps_speaking (e : Event) : bool :=
  match e with
  | OnMessage _ _ message => negb (interrupted_of message)
  | OnOpen | OnAudioProcess _ _ _ => true
  | Connect env =>
      bool_decide (is_Some (credential env) /\ is_Some (getUserMedia env))
  | Disconnect | OnClose | OnError | OnEnded _ => false
  end.

End Phases.

(** *** Sample inputs *)

Definition sample_session : Session :=
  {| has_close := true; close_throws := false |}.

Definition sample_promise : SessionPromise := Fulfilled (Some sample_session).

Definition sample_clock (now : Q) : Clock :=
  {| currentTime := now; dateNow := 1700000000000; newDate := 1700000000001 |}.

(** Every [stop()] throws: the hardest case for [stopPlayback]. *)
Definition always_throws (source : SourceId) : bool := true.

(** A message whose only content is an audio part. *)
Definition audioMessage (base64Audio : string) : LiveServerMessage :=
  {| toolCall := None;
     serverContent := Some
       {| inputTranscription := None; outputTranscription := None;
          turnComplete := false; interrupted := false;
          modelTurn := Some (mkContent (Some
            [mkPart (Some (mkBlob (Some base64Audio)))])) |} |}.

(** A message whose only content is the interrupted flag. *)
Definition interruptedSignal : LiveServerMessage :=
  {| toolCall := None;
     serverContent := Some
       {| inputTranscription := None; outputTranscription := None;
          turnComplete := false; interrupted := true; modelTurn := None |} |}.

(** A message with fragments on both sides. *)
Definition bothSidesMessage (input output : string) : LiveServerMessage :=
  {| toolCall := None;
     serverContent := Some
       {| inputTranscription := Some (mkTranscription (Some input));
          outputTranscription := Some (mkTranscription (Some output));
          turnComplete := false; interrupted := false; modelTurn := None |} |}.

(** A message with one call of the mode tool. *)
Definition modeCallMessage (fid mode : string) : LiveServerMessage :=
  {| toolCall := Some (mkToolCall
       [{| fc_id := Some fid; fc_name := Some "setTeachingMode";
           fc_args := {[ "mode" := mode ]} |}]);
     serverContent := None |}.

Definition sample_env : ConnectEnv :=
  {| process_env_API_KEY := Some (Some "key");
     getUserMedia := Some (mkMediaStream [0%nat]);
     live_connect := sample_promise |}.

Definition no_key_env : ConnectEnv :=
  {| process_env_API_KEY := Some None;
     getUserMedia := Some (mkMediaStream [0%nat]);
     live_connect := sample_promise |}.

Definition no_microphone_env : ConnectEnv :=
  {| process_env_API_KEY := Some (Some "key");
     getUserMedia := None;
     live_connect := sample_promise |}.

(** The state after a successful [connect] and the opening of the
    transport. *)
Definition connected_state : State :=
  {| isConnected := true; isSpeaking := false; volume := 0; error := None;
     messages := [];
     inputContextRef := Some (mkAudioContext 16000);
     outputContextRef := Some (mkAudioContext 24000);
     sessionRef := Some sample_promise;
     inputSourceRef := Some (mkMediaStreamSource (mkMediaStream [0%nat]));
     processorRef := Some (mkScriptProcessor 4096);
     streamRef := Some (mkMediaStream [0%nat]);
     nextStartTimeRef := 0; scheduledSourcesRef := [];
     currentMode := CONVERSATION; nextSourceId := 0 |}.

(** A model entry still open. *)
Definition open_model_entry : ChatMessage :=
  {| id := "1700000000000-model"; role := model; text := "Let me expl";
     timestamp := 1700000000001; isFinal := Some false |}.

(** A connected state with an open model entry and two segments in
    flight. *)
Definition speaking_state : State :=
  set_nextSourceId 2 (set_scheduledSourcesRef [0%nat; 1%nat]
    (set_nextStartTimeRef 5 (set_isSpeaking true
       (set_messages [open_model_entry] connected_state)))).

(** *** Further vocabulary: the rest of the hook and its users *)

(** The function declaration [setTeachingModeTool] the hook hands to the
    transport: the tool's name, the values its [mode] parameter may take,
    and the required parameters. *)
Record FunctionDeclaration := mkFunctionDeclaration {
  fd_name : string;
  fd_description : string;
  fd_mode_enum : list string;
  fd_mode_description : string;
  fd_required : list string
}.

Definition setTeachingModeTool : FunctionDeclaration :=
  {| fd_name := "setTeachingMode";
     fd_description := "Updates the current teaching mode displayed to the user.";
     fd_mode_enum := [TeachingMode_value CONVERSATION;
                      TeachingMode_value CORRECTION;
                      TeachingMode_value EXPLANATION];
     fd_mode_description := "The new teaching mode.";
     fd_required := ["mode"] |}.

(** A call of the declared tool with the given [mode] argument. *)
Definition declaredCall (fid : option string) (mode : string) : FunctionCall :=
  {| fc_id := fid; fc_name := Some (fd_name setTeachingModeTool);
     fc_args := {[ "mode" := mode ]} |}.

(** A message whose only content is a list of tool calls. *)
Definition toolCallMessage (fcs : list FunctionCall) : LiveServerMessage :=
  {| toolCall := Some (mkToolCall fcs); serverContent := None |}.

(** [getBarColor] of the [Visualizer] component, a [switch] over the
    [mode] string it is given. *)
Definition getBarColor (mode : string) : string :=
  if String.eqb mode "Conversation Mode" then "bg-blue-500"
  else if String.eqb mode "Correction Mode" then "bg-yellow-500"
  else if String.eqb mode "Explanation Mode" then "bg-purple-500"
  else "bg-gray-400".

(** [getModeColor] of the [App] component, a [switch] over the members
    of [TeachingMode]. *)
Definition getModeColor (mode : TeachingMode) : string :=
  match mode with
  | CONVERSATION => "text-blue-600 bg-blue-100 border-blue-200"
  | CORRECTION => "text-yellow-700 bg-yellow-100 border-yellow-200"
  | EXPLANATION => "text-purple-700 bg-purple-100 border-purple-200"
  | IDLE => "text-gray-600 bg-gray-100 border-gray-200"
  end.

(** Events other than a new [connect]. *)
Definition no_connect (e : Event) : bool :=
  match e with
  | Connect _ => false
  | _ => true
  end.

(** The part of the transcript that no longer changes: all of it when
    the last entry is final, all but the last entry otherwise. *)
Definition stable_log (l : list ChatMessage) : list ChatMessage :=
  match last l with
  | Some m => if isFinal_truthy m then l else slice_0_m1 l
  | None => l
  end.



(** While a segment is in flight the speaking state is on. *)
Definition speaking_covers_flight (s : State) : Prop :=
  scheduledSourcesRef s <> [] -> isSpeaking s = true.

(** No entry of the transcript has an empty text. *)
Definition texts_nonempty (l : list ChatMessage) : Prop :=
  Forall (fun m => text m <> "") l.

(** The state a successful [connect] leaves. *)
Definition connect_succeeded (env : ConnectEnv) (st : MediaStream)
    (s : State) : State :=
  {| isConnected := isConnected s; isSpeaking := isSpeaking s;
     volume := volume s; error := None; messages := [];
     inputContextRef := Some (mkAudioContext 16000);
     outputContextRef := Some (mkAudioContext 24000);
     sessionRef := Some (live_connect env);
     inputSourceRef := Some (mkMediaStreamSource st);
     processorRef := Some (mkScriptProcessor 4096);
     streamRef := Some st;
     nextStartTimeRef := nextStartTimeRef s;
     scheduledSourcesRef := scheduledSourcesRef s;
     currentMode := currentMode s; nextSourceId := nextSourceId s |}.

(** Events other than the opening of the transport. *)
Definition not_open (e : Event) : bool :=
  match e with
  | OnOpen => false
  | _ => true
  end.

(** Effects that release a resource. *)
Definition releases (e : Effect) : bool :=
  match e with
  | ProcessorDisconnect | InputSourceDisconnect | TrackStop _
  | ContextClose _ | SessionClose | Later SessionClose => true
  | _ => false
  end.

(** * Properties *)

(** Unfolds the monad operations, the setters and the projections of the
    state, and leaves the callbacks and their loops in place. *)
Ltac unfold_M :=
  cbv beta iota delta
    [mbind M_bind mret M_ret gets modify emit throw try_catch when whenSome
     unawaited later promise_then promise_then_catch
     setIsConnected setIsSpeaking setVolume setError setMessages onModeChange
     state_of trace_of outcome_of fst snd
     isConnected isSpeaking volume error messages inputContextRef
     outputContextRef sessionRef inputSourceRef processorRef streamRef
     nextStartTimeRef scheduledSourcesRef currentMode nextSourceId
     set_isConnected set_isSpeaking set_volume set_error set_messages
     set_inputContextRef set_outputContextRef set_sessionRef
     set_inputSourceRef set_processorRef set_streamRef set_nextStartTimeRef
     set_scheduledSourcesRef set_currentMode set_nextSourceId].

Lemma forEach_cons {A} (x : A) (xs : list A) (f : A -> M unit) s :
  forEach (x :: xs) f s =
  match f x s with
  | (s1, t1, Return _) =>
      match forEach xs f s1 with (s2, t2, r) => (s2, t1 ++ t2, r) end
  | (s1, t1, Throw e) => (s1, t1, Throw e)
  end.
Proof. reflexivity. Qed.

Lemma bind_Return {A B} (m : M A) (k : A -> M B) s s1 t1 a :
  m s = (s1, t1, Return a) ->
  (m ≫= k) s = match k a s1 with (s2, t2, r) => (s2, t1 ++ t2, r) end.
Proof. intros H. unfold mbind, M_bind. rewrite H. reflexivity. Qed.

Lemma TeachingMode_of_value_Some v m :
  TeachingMode_of_value v = Some m <-> v = TeachingMode_value m.
Proof.
  split.
  - intros H. apply List.find_some in H as [_ H].
    apply String.eqb_eq in H. congruence.
  - intros ->. destruct m; reflexivity.
Qed.

Lemma duration_nonneg b : (0 <= duration b)%Q.
Proof. unfold duration, Qle. cbn. lia. Qed.

Lemma snap_ge_cursor c now : (c <= snap c now)%Q.
Proof. unfold snap. destruct (Qlt_le_dec c now); lra. Qed.

Lemma snap_ge_now c now : (now <= snap c now)%Q.
Proof. unfold snap. destruct (Qlt_le_dec c now); lra. Qed.

Lemma snap_spec c now :
  ((c < now)%Q -> snap c now = now) /\ ((now <= c)%Q -> snap c now = c).
Proof.
  unfold snap. destruct (Qlt_le_dec c now); split; intros; try reflexivity; lra.
Qed.

Lemma starts_app t1 t2 : starts (t1 ++ t2) = starts t1 ++ starts t2.
Proof. apply omap_app. Qed.

Lemma acks_app t1 t2 : acks (t1 ++ t2) = acks t1 ++ acks t2.
Proof. apply omap_app. Qed.

Lemma mode_changes_app t1 t2 :
  mode_changes (t1 ++ t2) = mode_changes t1 ++ mode_changes t2.
Proof. apply omap_app. Qed.

Lemma chained_from_weaken c0 c l c' :
  (c0 <= c)%Q -> chained_from c l c' -> chained_from c0 l c'.
Proof.
  destruct l as [|[w d] rest]; cbn.
  - intros; lra.
  - intros H (H1 & H2 & H3). repeat split; [lra|assumption|assumption].
Qed.

Lemma chained_from_app c l1 c1 l2 c2 :
  chained_from c l1 c1 -> chained_from c1 l2 c2 ->
  chained_from c (l1 ++ l2) c2.
Proof.
  revert c. induction l1 as [|[w d] rest IH]; intros c; cbn.
  - intros H. apply chained_from_weaken, H.
  - intros (H1 & H2 & H3) H4. repeat split; [assumption..|].
    apply IH; assumption.
Qed.

Lemma chained_from_le c l c' : chained_from c l c' -> (c <= c')%Q.
Proof.
  revert c. induction l as [|[w d] rest IH]; intros c; cbn; [tauto|].
  intros (H1 & H2 & H3). apply IH in H3. lra.
Qed.

(** In a chained list every segment starts at or after the end of the
    one before it, hence at or after its start. *)
Lemma chained_from_consecutive c l c' i w1 d1 w2 d2 :
  chained_from c l c' ->
  l !! i = Some (w1, d1) -> l !! S i = Some (w2, d2) ->
  (w1 + d1 <= w2)%Q /\ (w1 <= w2)%Q.
Proof.
  revert c i. induction l as [|[w d] rest IH]; intros c i; [discriminate 2|].
  cbn [chained_from]. intros (H1 & H2 & H3).
  destruct i as [|i]; cbn.
  - intros [= -> ->]. destruct rest as [|[w' d'] rest']; [discriminate|].
    intros [= -> ->]. cbn in H3. lra.
  - intros Ha Hb. eapply IH; eassumption.
Qed.

Lemma slice_0_m1_snoc (l : list ChatMessage) (m : ChatMessage) :
  slice_0_m1 (l ++ [m]) = l.
Proof.
  unfold slice_0_m1. rewrite length_app. cbn [length].
  replace (length l + 1 - 1)%nat with (length l) by lia.
  apply take_app_length.
Qed.

Lemma elem_of_set_add x y l : x ∈ l -> x ∈ set_add y l.
Proof.
  intros Hx. unfold set_add. case_bool_decide; [assumption|].
  apply elem_of_app. left. exact Hx.
Qed.

Lemma interruptedUpdater_open_model init m :
  role m = model -> isFinal_truthy m = false ->
  interruptedUpdater (init ++ [m])
  = init ++ [mkChatMessage (id m) model (text m +:+ " ...") (timestamp m)
               (Some true)].
Proof.
  intros Hr Hf. unfold interruptedUpdater.
  rewrite last_snoc, Hf, Hr, slice_0_m1_snoc. cbn.
  unfold with_text, with_isFinal. cbn. rewrite Hr. reflexivity.
Qed.

Lemma TeachingMode_of_value_None v :
  TeachingMode_of_value v = None <-> v ∉ TeachingMode_values.
Proof.
  unfold TeachingMode_values. rewrite list_elem_of_fmap. split.
  - intros Hn (m & -> & _).
    pose proof (proj2 (TeachingMode_of_value_Some (TeachingMode_value m) m) eq_refl).
    congruence.
  - intros Hn. destruct (TeachingMode_of_value v) as [m|] eqn:E; [|reflexivity].
    exfalso. apply Hn. exists m. split.
    + apply TeachingMode_of_value_Some, E.
    + destruct m; unfold TeachingMode_members; set_solver.
Qed.

Lemma acks_toolCalls_effects sess fcs :
  acks (toolCalls_effects (Fulfilled (Some sess)) fcs) = expected_acks fcs.
Proof.
  unfold expected_acks, toolCalls_effects.
  induction fcs as [|fc fcs IH]; [reflexivity|].
  cbn [mbind list_bind List.filter]. rewrite acks_app, IH.
  destruct (names_mode_tool fc); [|reflexivity].
  destruct (requested_mode fc); reflexivity.
Qed.

Lemma mode_changes_toolCalls_effects p fcs :
  mode_changes (toolCalls_effects p fcs) = expected_mode_changes fcs.
Proof.
  unfold expected_mode_changes, toolCalls_effects.
  induction fcs as [|fc fcs IH]; [reflexivity|].
  cbn [mbind list_bind List.filter]. rewrite mode_changes_app, IH.
  destruct (names_mode_tool fc); [|reflexivity].
  cbn [omap list_omap].
  destruct (requested_mode fc); destruct p as [[?|]| |]; reflexivity.
Qed.

Lemma acks_stops (l : list SourceId) : acks (SourceStop <$> l) = [].
Proof. induction l; [reflexivity|assumption]. Qed.

Lemma mode_changes_stops (l : list SourceId) :
  mode_changes (SourceStop <$> l) = [].
Proof. induction l; [reflexivity|assumption]. Qed.

Lemma starts_stops (l : list SourceId) : starts (SourceStop <$> l) = [].
Proof. induction l; [reflexivity|assumption]. Qed.

Lemma starts_toolCalls_effects p fcs : starts (toolCalls_effects p fcs) = [].
Proof.
  unfold toolCalls_effects. induction fcs as [|fc fcs IH]; [reflexivity|].
  cbn [mbind list_bind]. rewrite starts_app, IH.
  destruct (names_mode_tool fc); [|reflexivity].
  destruct (requested_mode fc); destruct p as [[?|]| |]; reflexivity.
Qed.

(** ** The transcript updaters *)

Lemma is_truthy_nonempty t : t <> "" -> is_truthy (Some t) = true.
Proof.
  intros Ht. unfold is_truthy, truthy.
  rewrite (bool_decide_eq_false_2 _ Ht). reflexivity.
Qed.

Lemma truthy_nonempty t : t <> "" -> truthy (Some t) = Some t.
Proof.
  intros Ht. unfold truthy. rewrite (bool_decide_eq_false_2 _ Ht). reflexivity.
Qed.

Lemma mergeDelta_append clock r t init m :
  role m = r -> isFinal_truthy m = false ->
  mergeDelta clock r t (init ++ [m])
  = init ++ [mkChatMessage (id m) (role m) (text m +:+ t) (timestamp m)
               (isFinal m)].
Proof.
  intros Hr Hf. unfold mergeDelta, open_with_role.
  rewrite last_snoc, Hf, (bool_decide_eq_true_2 _ Hr), slice_0_m1_snoc.
  reflexivity.
Qed.

Lemma mergeDelta_new clock r t l :
  (l = [] \/
   exists init m, l = init ++ [m] /\ (role m <> r \/ isFinal_truthy m = true)) ->
  mergeDelta clock r t l
  = l ++ [mkChatMessage (pretty (dateNow clock) +:+ role_suffix r) r t
            (newDate clock) (Some false)].
Proof.
  intros [->|(init & m & -> & H)]; [reflexivity|].
  unfold mergeDelta, open_with_role. rewrite last_snoc.
  destruct H as [Hr|Hf].
  - rewrite (bool_decide_eq_false_2 _ Hr). reflexivity.
  - rewrite Hf, andb_false_r. reflexivity.
Qed.

Lemma turnCompleteUpdater_open init m :
  isFinal_truthy m = false ->
  turnCompleteUpdater (init ++ [m])
  = init ++ [mkChatMessage (id m) (role m) (text m) (timestamp m) (Some true)].
Proof.
  intros Hf. unfold turnCompleteUpdater.
  rewrite last_snoc, Hf, slice_0_m1_snoc. reflexivity.
Qed.

Lemma turnCompleteUpdater_closed l :
  (l = [] \/ exists init m, l = init ++ [m] /\ isFinal_truthy m = true) ->
  turnCompleteUpdater l = l.
Proof.
  intros [->|(init & m & -> & Hf)]; [reflexivity|].
  unfold turnCompleteUpdater. rewrite last_snoc, Hf. reflexivity.
Qed.

Lemma delta_log clock r t l :
  t <> "" ->
  (if serverContent (deltaMessage r t) is Some sc
   then log_after clock sc l else l)
  = mergeDelta clock r t l.
Proof.
  intros Ht. destruct r; cbn [deltaMessage serverContent]; unfold log_after;
    cbn [inputTranscription outputTranscription turnComplete interrupted
         mbind option_bind tx_text];
    unfold transcriptionUpdater;
    rewrite ?(is_truthy_nonempty _ Ht), ?(truthy_nonempty _ Ht); reflexivity.
Qed.

Section Properties.

Variable decode : string -> option AudioBuffer.
Variable stop_throws : SourceId -> bool.

(** ** What each callback computes *)

Lemma forEach_stopTrack (tracks : list nat) s :
  forEach tracks stopTrack s = (s, TrackStop <$> tracks, Return tt).
Proof.
  revert s. induction tracks as [|x xs IH]; intros s; [reflexivity|].
  rewrite forEach_cons.
  change (stopTrack x s) with (s, [TrackStop x], Return tt).
  unfold_M. rewrite IH. reflexivity.
Qed.

Lemma stopSource_run source s :
  stopSource stop_throws source s = (s, [SourceStop source], Return tt).
Proof.
  unfold stopSource, source_stop. unfold_M. destruct (stop_throws source); reflexivity.
Qed.

Lemma forEach_stopSource (sources : list SourceId) s :
  forEach sources (stopSource stop_throws) s
  = (s, SourceStop <$> sources, Return tt).
Proof.
  revert s. induction sources as [|x xs IH]; intros s; [reflexivity|].
  rewrite forEach_cons, stopSource_run, IH. reflexivity.
Qed.

Lemma stopPlayback_run s :
  stopPlayback stop_throws s
  = (stopped s, SourceStop <$> scheduledSourcesRef s, Return tt).
Proof.
  unfold stopPlayback. unfold_M. rewrite forEach_stopSource.
  cbn. rewrite app_nil_r. reflexivity.
Qed.

Lemma stopAudioProcessing_run s :
  stopAudioProcessing s = (capture_released s, capture_effects s, Return tt).
Proof.
  unfold stopAudioProcessing, capture_released, capture_effects.
  destruct s as [? ? ? ? ? ic oc ? isr pr [st|] ? ? ? ?]; unfold_M;
    destruct pr, isr; unfold_M; rewrite ?forEach_stopTrack; destruct ic; unfold_M;
    rewrite ?app_nil_r; reflexivity.
Qed.

Lemma disconnect_run s :
  disconnect stop_throws s = (torn_down s, teardown_effects s, Return tt).
Proof.
  unfold disconnect. unfold_M.
  rewrite stopAudioProcessing_run. unfold_M.
  rewrite stopPlayback_run.
  unfold teardown_effects, transport_close_effects, torn_down, stopped,
    capture_released, session_close.
  destruct s as [? ? ? ? ? ic oc sp isr pr st ? ? ? ?]; unfold_M.
  destruct sp as [[[[[] []]|]| |]|], oc; unfold_M; cbn;
    rewrite ?app_nil_r; reflexivity.
Qed.

Lemma handleFunctionCall_run p fc s :
  handleFunctionCall p fc s
  = (set_currentMode (apply_call (currentMode s) fc) s,
     toolCalls_effects p [fc], Return tt).
Proof.
  unfold handleFunctionCall, apply_call, toolCalls_effects, names_mode_tool,
    requested_mode.
  cbn [mbind list_bind]. rewrite app_nil_r.
  destruct (bool_decide (fc_name fc = Some "setTeachingMode")); [|reflexivity].
  destruct (fc_args fc !! "mode" ≫= TeachingMode_of_value);
    destruct p as [[sess|]| |]; reflexivity.
Qed.

Lemma toolCalls_run p fcs s :
  forEach fcs (handleFunctionCall p) s
  = (set_currentMode (modes_after fcs (currentMode s)) s,
     toolCalls_effects p fcs, Return tt).
Proof.
  revert s. induction fcs as [|fc fcs IH]; intros s; [reflexivity|].
  rewrite forEach_cons, handleFunctionCall_run, IH.
  unfold toolCalls_effects. cbn [mbind list_bind]. rewrite app_nil_r.
  reflexivity.
Qed.

Lemma handleServerContent_run clock sc s :
  handleServerContent clock sc s
  = (set_messages (log_after clock sc (messages s)) s, [], Return tt).
Proof.
  unfold handleServerContent, log_after.
  destruct (is_truthy (inputTranscription sc ≫= tx_text)
            || is_truthy (outputTranscription sc ≫= tx_text)),
    (turnComplete sc), (interrupted sc); reflexivity.
Qed.

Lemma handleAudio_run clock message s :
  handleAudio decode clock message s
  = ((audio_phase decode clock message s).1,
     (audio_phase decode clock message s).2, Return tt).
Proof.
  unfold handleAudio, audio_phase, scheduleAudio, snap. unfold_M.
  destruct (truthy (base64Audio_of message)) as [b64|]; [|reflexivity].
  destruct s as [? ? ? ? ? ic [ctx|] ? ? ? ? cursor ? ? ?]; unfold_M; [|reflexivity].
  destruct (Qlt_le_dec cursor (currentTime clock)); unfold_M;
    destruct (decode b64); reflexivity.
Qed.

Lemma toolCall_phase_run p message s :
  whenSome (toolCall message)
    (fun tc => forEach (functionCalls tc) (handleFunctionCall p)) s
  = (set_currentMode (modes_after (calls_of message) (currentMode s)) s,
     toolCalls_effects p (calls_of message), Return tt).
Proof.
  unfold calls_of. destruct (toolCall message) as [tc|]; [|reflexivity].
  apply toolCalls_run.
Qed.

Lemma content_phase_run clock message s :
  whenSome (serverContent message) (handleServerContent clock) s
  = (match serverContent message with
     | Some sc => set_messages (log_after clock sc (messages s)) s
     | None => s
     end, [], Return tt).
Proof.
  destruct (serverContent message) as [sc|]; [|reflexivity].
  apply handleServerContent_run.
Qed.

Lemma interrupt_phase_run message s :
  when (interrupted_of message) (stopPlayback stop_throws) s
  = (if interrupted_of message then stopped s else s,
     if interrupted_of message then SourceStop <$> scheduledSourcesRef s else [],
     Return tt).
Proof.
  destruct (interrupted_of message); [|reflexivity]. apply stopPlayback_run.
Qed.

Lemma onmessage_run p clock message s :
  onmessage decode stop_throws p clock message s
  = ((message_phase decode p clock message s).1,
     (message_phase decode p clock message s).2, Return tt).
Proof.
  unfold onmessage.
  erewrite bind_Return by apply toolCall_phase_run.
  erewrite bind_Return by apply content_phase_run.
  erewrite bind_Return by apply handleAudio_run.
  rewrite interrupt_phase_run.
  unfold message_phase, after_content.
  destruct (interrupted_of message); cbn; rewrite ?app_nil_r; reflexivity.
Qed.

(** ** Teardown *)

(** C5. [disconnect] never raises and is idempotent: a second call in
    succession returns normally and leaves the state of the first call.
    Each call releases what the capture side holds, stops playback,
    closes the transport (a failing close is logged by a promise
    reaction, not raised), resets the mode to Idle and the connection
    state to disconnected; a resource that was never acquired is skipped,
    so the second call only notifies the mode observer. *)
Theorem disconnect_idempotent (s : State) :
  let r1 := disconnect stop_throws s in
  let r2 := disconnect stop_throws (state_of r1) in
  outcome_of r1 = Return tt /\
  outcome_of r2 = Return tt /\
  state_of r2 = state_of r1 /\
  state_of r1 = torn_down s /\
  trace_of r1 = teardown_effects s /\
  trace_of r2 = [ModeChange IDLE] /\
  isConnected (state_of r1) = false /\
  currentMode (state_of r1) = IDLE /\
  (forall sess, sessionRef s = Some (Fulfilled (Some sess)) ->
     has_close sess = true ->
     Later SessionClose ∈ trace_of r1 /\
     (close_throws sess = true ->
      Later (ConsoleError "Error closing session") ∈ trace_of r1)) /\
  (sessionRef s = Some Rejected ->
     Later (ConsoleError "Error closing session") ∈ trace_of r1) /\
  teardown_effects initialState = [ModeChange IDLE].
Proof.
  cbv zeta. rewrite !disconnect_run. unfold state_of, trace_of, outcome_of.
  cbn [fst snd].
  do 8 (split; [reflexivity|]).
  split; [|split; [|reflexivity]].
  - intros sess Hs Hclose.
    unfold teardown_effects, transport_close_effects. rewrite Hs, Hclose.
    rewrite !elem_of_app. split.
    + right; right; left. destruct (close_throws sess); apply list_elem_of_here.
    + intros ->. right; right; left.
      apply list_elem_of_further, list_elem_of_here.
  - intros Hr. unfold teardown_effects, transport_close_effects.
    rewrite Hr, !elem_of_app. right; right; left. apply list_elem_of_here.
Qed.

(** ** The phases of [onmessage], field by field *)

Lemma message_phase_messages p clock message s :
  messages (message_phase decode p clock message s).1
  = match serverContent message with
    | Some sc => log_after clock sc (messages s)
    | None => messages s
    end.
Proof.
  unfold message_phase, after_content, audio_phase, stopped.
  repeat case_match; reflexivity.
Qed.

Lemma audio_phase_sources clock message s src :
  src ∈ scheduledSourcesRef s ->
  src ∈ scheduledSourcesRef (audio_phase decode clock message s).1.
Proof.
  unfold audio_phase. repeat case_match; cbn; auto using elem_of_set_add.
Qed.

(** ** Interruption *)

(** C2. An interrupted signal (a message that carries the interrupted
    flag and neither a transcript fragment nor turn-complete) that
    arrives while the last transcript entry is an open model message
    appends [" ..."] to that entry and marks it final; playback is then
    stopped: [stop()] is called on every segment in flight, a throwing
    [stop()] is swallowed, the in-flight set is emptied, the cursor is
    zero and the speaking state false.  The handler returns normally,
    whatever was in flight. *)
Theorem interrupted_marks_and_stops p clock message sc init m (s : State) :
  serverContent message = Some sc ->
  interrupted sc = true ->
  turnComplete sc = false ->
  inputTx_of sc = None ->
  outputTx_of sc = None ->
  messages s = init ++ [m] ->
  role m = model ->
  isFinal_truthy m = false ->
  let r := onmessage decode stop_throws p clock message s in
  outcome_of r = Return tt /\
  messages (state_of r)
  = init ++ [mkChatMessage (id m) model (text m +:+ " ...") (timestamp m)
               (Some true)] /\
  scheduledSourcesRef (state_of r) = [] /\
  nextStartTimeRef (state_of r) = 0%Q /\
  isSpeaking (state_of r) = false /\
  (forall src, src ∈ scheduledSourcesRef s -> SourceStop src ∈ trace_of r).
Proof.
  intros Hsc Hi Htc Hin Hout Hlog Hrole Hopen r. subst r.
  rewrite onmessage_run. unfold state_of, trace_of, outcome_of. cbn [fst snd].
  split; [reflexivity|]. split.
  { rewrite message_phase_messages, Hsc, Hlog. unfold log_after, is_truthy.
    unfold inputTx_of in Hin. unfold outputTx_of in Hout.
    rewrite Hin, Hout, Htc, Hi. cbn.
    apply interruptedUpdater_open_model; assumption. }
  unfold message_phase, interrupted_of. rewrite Hsc, Hi. cbn [fst snd].
  repeat split.
  intros src Hsrc. rewrite !elem_of_app. right; right.
  apply list_elem_of_fmap. exists src. split; [reflexivity|].
  apply audio_phase_sources.
  unfold after_content. rewrite Hsc. exact Hsrc.
Qed.

(** ** Tool calls *)

Lemma audio_phase_no_acks clock message s :
  acks (audio_phase decode clock message s).2 = [] /\
  mode_changes (audio_phase decode clock message s).2 = [].
Proof. unfold audio_phase. repeat case_match; split; reflexivity. Qed.

Lemma message_phase_acks sess clock message s :
  acks (message_phase decode (Fulfilled (Some sess)) clock message s).2
  = expected_acks (calls_of message).
Proof.
  unfold message_phase.
  destruct (interrupted_of message); cbn [snd];
    rewrite !acks_app, ?acks_stops, acks_toolCalls_effects,
      (proj1 (audio_phase_no_acks _ _ _)), !app_nil_r; reflexivity.
Qed.

Lemma message_phase_mode_changes p clock message s :
  mode_changes (message_phase decode p clock message s).2
  = expected_mode_changes (calls_of message).
Proof.
  unfold message_phase.
  destruct (interrupted_of message); cbn [snd];
    rewrite !mode_changes_app, ?mode_changes_stops,
      mode_changes_toolCalls_effects,
      (proj2 (audio_phase_no_acks _ _ _)), !app_nil_r; reflexivity.
Qed.

Lemma message_phase_currentMode p clock message s :
  currentMode (message_phase decode p clock message s).1
  = modes_after (calls_of message) (currentMode s).
Proof.
  unfold message_phase, after_content, audio_phase, stopped.
  repeat case_match; reflexivity.
Qed.

(** C4. For a message that carries tool calls, on an open transport:
    every call that names [setTeachingMode] is acknowledged exactly once,
    in order, with its own id and name, and no other acknowledgment is
    sent; the observer is notified of exactly the requested modes that
    are values of [TeachingMode], and ends with the last of them.  For a
    single call: a recognized mode is applied and notified, an
    unrecognized or missing one leaves the mode unchanged, and in both
    cases the one acknowledgment is sent. *)
Theorem mode_tool_call_acknowledged sess clock message tc (s : State) :
  toolCall message = Some tc ->
  let r := onmessage decode stop_throws (Fulfilled (Some sess)) clock message s in
  outcome_of r = Return tt /\
  acks (trace_of r) = expected_acks (functionCalls tc) /\
  mode_changes (trace_of r) = expected_mode_changes (functionCalls tc) /\
  currentMode (state_of r) = modes_after (functionCalls tc) (currentMode s) /\
  (forall fc, functionCalls tc = [fc] ->
     fc_name fc = Some "setTeachingMode" ->
     acks (trace_of r) = [(fc_id fc, fc_name fc, "Mode updated")] /\
     (forall m, fc_args fc !! "mode" = Some (TeachingMode_value m) ->
        currentMode (state_of r) = m /\ mode_changes (trace_of r) = [m]) /\
     (forall v, fc_args fc !! "mode" = Some v -> v ∉ TeachingMode_values ->
        currentMode (state_of r) = currentMode s /\
        mode_changes (trace_of r) = []) /\
     (fc_args fc !! "mode" = None ->
        currentMode (state_of r) = currentMode s /\
        mode_changes (trace_of r) = [])).
Proof.
  intros Htc r. subst r.
  rewrite onmessage_run. unfold state_of, trace_of, outcome_of. cbn [fst snd].
  rewrite message_phase_acks, message_phase_mode_changes,
    message_phase_currentMode.
  unfold calls_of. rewrite Htc.
  do 4 (split; [reflexivity|]).
  intros fc Hfcs Hname. rewrite Hfcs.
  assert (names_mode_tool fc = true) as Hn
    by (unfold names_mode_tool; rewrite Hname;
        apply bool_decide_eq_true_2; reflexivity).
  unfold expected_acks, expected_mode_changes, modes_after, apply_call,
    requested_mode.
  cbn [List.filter foldl fmap list_fmap omap list_omap].
  rewrite Hn. cbn [fmap list_fmap omap list_omap].
  split; [reflexivity|]. split; [|split].
  - intros m Hm. rewrite Hm. cbn [mbind option_bind].
    rewrite (proj2 (TeachingMode_of_value_Some _ m) eq_refl).
    split; reflexivity.
  - intros v Hv Hnot. rewrite Hv. cbn [mbind option_bind].
    rewrite (proj2 (TeachingMode_of_value_None v) Hnot).
    split; reflexivity.
  - intros Hnone. rewrite Hnone. split; reflexivity.
Qed.

(** ** Playback scheduling *)

Lemma onopen_run s :
  onopen s
  = (set_currentMode CONVERSATION (set_isConnected true s),
     [ConsoleLog "Connection opened"; ModeChange CONVERSATION], Return tt).
Proof. reflexivity. Qed.

Lemma onended_run source s :
  onended source s
  = (let l := set_delete source (scheduledSourcesRef s) in
     let s1 := set_scheduledSourcesRef l s in
     if bool_decide (length l = 0%nat) then set_isSpeaking false s1 else s1,
     [], Return tt).
Proof.
  unfold onended. unfold_M.
  destruct (bool_decide (length (set_delete source (scheduledSourcesRef s)) = 0%nat));
    reflexivity.
Qed.

Lemma onaudioprocess_run p level base64Data s :
  onaudioprocess p level base64Data s
  = (set_volume level s,
     if p is Fulfilled (Some _)
     then [Later (SendRealtimeInput "audio/pcm;rate=16000" base64Data)]
     else [],
     Return tt).
Proof. destruct p as [[sess|]| |]; reflexivity. Qed.

Lemma audio_phase_chained clock message s :
  chained_from (nextStartTimeRef s)
    (starts (audio_phase decode clock message s).2)
    (nextStartTimeRef (audio_phase decode clock message s).1).
Proof.
  unfold audio_phase.
  pose proof (snap_ge_cursor (nextStartTimeRef s) (currentTime clock)).
  repeat case_match; cbn; repeat split;
    auto using duration_nonneg; lra.
Qed.

Lemma message_phase_chained p clock message s :
  interrupted_of message = false ->
  chained_from (nextStartTimeRef s)
    (starts (message_phase decode p clock message s).2)
    (nextStartTimeRef (message_phase decode p clock message s).1).
Proof.
  intros Hi. unfold message_phase. rewrite Hi. cbn [fst snd].
  rewrite starts_app, starts_toolCalls_effects. cbn [app].
  set (s2 := after_content _ _ _ _).
  replace (nextStartTimeRef s) with (nextStartTimeRef s2)
    by (unfold s2, after_content; case_match; reflexivity).
  apply audio_phase_chained.
Qed.

Lemma handle_chained e s :
  no_stop e = true ->
  chained_from (nextStartTimeRef s)
    (starts (trace_of (handle decode stop_throws e s)))
    (nextStartTimeRef (state_of (handle decode stop_throws e s))).
Proof.
  destruct e as [env| | |p clock message| | |source|p level base64Data];
    cbn [no_stop handle]; try discriminate.
  - intros _. rewrite onopen_run. cbn. lra.
  - intros Hi. apply negb_true_iff in Hi. rewrite onmessage_run.
    apply message_phase_chained, Hi.
  - intros _. rewrite onended_run. unfold state_of, trace_of. cbn [fst snd].
    case_match; cbn; lra.
  - intros _. rewrite onaudioprocess_run. unfold state_of, trace_of.
    cbn [fst snd]. case_match; [case_match|..]; cbn; lra.
Qed.

Lemma run_cons e es s :
  run decode stop_throws (e :: es) s
  = (let r := handle decode stop_throws e s in
     let r' := run decode stop_throws es (state_of r) in
     (r'.1, trace_of r ++ r'.2)).
Proof.
  cbn [run]. unfold state_of, trace_of.
  destruct (handle decode stop_throws e s) as [[s1 t1] o]. cbn [fst snd].
  destruct (run decode stop_throws es s1); reflexivity.
Qed.

Lemma run_state_cons e es s :
  (run decode stop_throws (e :: es) s).1
  = (run decode stop_throws es (state_of (handle decode stop_throws e s))).1.
Proof. rewrite run_cons. reflexivity. Qed.

Lemma run_chained es s :
  Forall (fun e => no_stop e = true) es ->
  chained_from (nextStartTimeRef s)
    (starts (run decode stop_throws es s).2)
    (nextStartTimeRef (run decode stop_throws es s).1).
Proof.
  intros Hes. revert s. induction Hes as [|e es He Hes IH]; intros s.
  - cbn. lra.
  - rewrite run_cons. cbn [fst snd]. rewrite starts_app.
    eapply chained_from_app; [apply handle_chained, He|apply IH].
Qed.

Lemma message_phase_starts p clock message s :
  starts (message_phase decode p clock message s).2
  = starts (audio_phase decode clock message
              (after_content clock message (calls_of message) s)).2.
Proof.
  unfold message_phase. destruct (interrupted_of message); cbn [snd];
    rewrite !starts_app, ?starts_stops, starts_toolCalls_effects, ?app_nil_r;
    reflexivity.
Qed.

Lemma after_content_frame clock message fcs s :
  let s' := after_content clock message fcs s in
  isConnected s' = isConnected s /\ isSpeaking s' = isSpeaking s /\
  error s' = error s /\ resources s' = resources s /\
  nextStartTimeRef s' = nextStartTimeRef s /\
  scheduledSourcesRef s' = scheduledSourcesRef s /\
  nextSourceId s' = nextSourceId s.
Proof. unfold after_content. case_match; repeat split. Qed.

Lemma message_phase_session p clock message s :
  let s' := (message_phase decode p clock message s).1 in
  isConnected s' = isConnected s /\ error s' = error s /\
  resources s' = resources s.
Proof.
  unfold message_phase, after_content, audio_phase, stopped.
  repeat case_match; repeat split.
Qed.

Lemma audio_phase_decoded clock message b64 ctx buf s :
  truthy (base64Audio_of message) = Some b64 ->
  outputContextRef s = Some ctx ->
  decode b64 = Some buf ->
  let a := audio_phase decode clock message s in
  let start := snap (nextStartTimeRef s) (currentTime clock) in
  a.2 = [SourceStart (nextSourceId s) start (duration buf)] /\
  nextStartTimeRef a.1 = (start + duration buf)%Q /\
  nextSourceId s ∈ scheduledSourcesRef a.1 /\
  isSpeaking a.1 = true.
Proof.
  intros Hb Hctx Hd. unfold audio_phase. rewrite Hb, Hctx, Hd. cbn.
  repeat split. unfold set_add. case_bool_decide; [assumption|].
  apply elem_of_app. right. apply list_elem_of_here.
Qed.

Lemma audio_phase_failed clock message b64 ctx s :
  truthy (base64Audio_of message) = Some b64 ->
  outputContextRef s = Some ctx ->
  decode b64 = None ->
  let a := audio_phase decode clock message s in
  a.2 = [ConsoleError "Audio decoding error"] /\
  scheduledSourcesRef a.1 = scheduledSourcesRef s /\
  nextSourceId a.1 = nextSourceId s /\
  isSpeaking a.1 = true.
Proof.
  intros Hb Hctx Hd. unfold audio_phase. rewrite Hb, Hctx, Hd. cbn.
  repeat split.
Qed.

Lemma onmessage_starts_decoded p clock message b64 ctx buf s :
  truthy (base64Audio_of message) = Some b64 ->
  outputContextRef s = Some ctx ->
  decode b64 = Some buf ->
  starts (trace_of (onmessage decode stop_throws p clock message s))
  = [(snap (nextStartTimeRef s) (currentTime clock), duration buf)].
Proof.
  intros Hb Hctx Hd. rewrite onmessage_run. unfold trace_of. cbn [fst snd].
  rewrite message_phase_starts.
  pose proof (after_content_frame clock message (calls_of message) s)
    as (_ & _ & _ & Hres & Hcur & _).
  set (s2 := after_content _ _ _ _) in *.
  assert (outputContextRef s2 = Some ctx) as Hctx2
    by (unfold resources in Hres; congruence).
  destruct (audio_phase_decoded clock message b64 ctx buf s2 Hb Hctx2 Hd)
    as (-> & _). rewrite Hcur. reflexivity.
Qed.

Lemma onmessage_cursor_decoded p clock message b64 ctx buf s :
  truthy (base64Audio_of message) = Some b64 ->
  outputContextRef s = Some ctx ->
  decode b64 = Some buf ->
  interrupted_of message = false ->
  nextStartTimeRef (state_of (onmessage decode stop_throws p clock message s))
  = (snap (nextStartTimeRef s) (currentTime clock) + duration buf)%Q.
Proof.
  intros Hb Hctx Hd Hi. rewrite onmessage_run. unfold state_of. cbn [fst snd].
  unfold message_phase. rewrite Hi. cbn [fst].
  pose proof (after_content_frame clock message (calls_of message) s)
    as (_ & _ & _ & Hres & Hcur & _).
  set (s2 := after_content _ _ _ _) in *.
  assert (outputContextRef s2 = Some ctx) as Hctx2
    by (unfold resources in Hres; congruence).
  destruct (audio_phase_decoded clock message b64 ctx buf s2 Hb Hctx2 Hd)
    as (_ & -> & _). rewrite Hcur. reflexivity.
Qed.

(** C1. Within a session (an output context exists), a message whose
    audio payload decodes and that carries no interruption schedules one
    segment, exactly at the cursor as it is after the snap to the output
    clock, and leaves the cursor at that start plus the duration of the
    segment; the snap moves the cursor to the clock reading when it is
    behind it and leaves it otherwise.  Hence over any sequence of events
    without a stop (messages without interruption, segment ends, capture
    frames, the opening of the transport) each scheduled segment starts at or after
    the start of the one before it plus its duration, and the start times
    are non-decreasing. *)
Theorem playback_monotone :
  (forall p clock message b64 ctx buf (s : State),
     truthy (base64Audio_of message) = Some b64 ->
     outputContextRef s = Some ctx ->
     decode b64 = Some buf ->
     interrupted_of message = false ->
     let r := onmessage decode stop_throws p clock message s in
     let start := snap (nextStartTimeRef s) (currentTime clock) in
     starts (trace_of r) = [(start, duration buf)] /\
     nextStartTimeRef (state_of r) = (start + duration buf)%Q /\
     ((nextStartTimeRef s < currentTime clock)%Q -> start = currentTime clock) /\
     ((currentTime clock <= nextStartTimeRef s)%Q -> start = nextStartTimeRef s)) /\
  (forall es (s : State),
     Forall (fun e => no_stop e = true) es ->
     let scheduled := starts (run decode stop_throws es s).2 in
     forall i w1 d1 w2 d2,
       scheduled !! i = Some (w1, d1) ->
       scheduled !! S i = Some (w2, d2) ->
       (w1 + d1 <= w2)%Q /\ (w1 <= w2)%Q).
Proof.
  split.
  - intros p clock message b64 ctx buf s Hb Hctx Hd Hi r start. subst r start.
    repeat split.
    + eapply onmessage_starts_decoded; eassumption.
    + eapply onmessage_cursor_decoded; eassumption.
    + apply snap_spec.
    + apply snap_spec.
  - intros es s Hes scheduled i w1 d1 w2 d2 H1 H2.
    eapply chained_from_consecutive; [apply run_chained, Hes|eassumption..].
Qed.

(** ** Connecting *)

Lemma truthy_Some_nonempty o k : truthy o = Some k -> o = Some k /\ k <> "".
Proof.
  destruct o as [x|]; cbn; [|discriminate].
  case_bool_decide; [discriminate|]. intros [= ->]. split; [reflexivity|assumption].
Qed.

Lemma truthy_None o : truthy o = None -> o = None \/ o = Some "".
Proof.
  destruct o as [x|]; cbn; [|tauto].
  case_bool_decide; [subst; tauto|discriminate].
Qed.

Lemma readApiKey_run env s :
  readApiKey env s
  = (s, if process_env_API_KEY env is None
        then [ConsoleError "process.env is not defined"] else [],
     Return (default "" (credential env))).
Proof.
  unfold readApiKey, credential.
  destruct (process_env_API_KEY env) as [k|]; reflexivity.
Qed.

Lemma connect_body_no_credential env s :
  credential env = None ->
  connect_body env s
  = (set_messages [] (set_error None s),
     if process_env_API_KEY env is None
     then [ConsoleError "process.env is not defined"] else [],
     Throw (Error missing_key_message)).
Proof.
  intros Hc. unfold connect_body.
  erewrite bind_Return by reflexivity.
  erewrite bind_Return by reflexivity.
  erewrite bind_Return by apply readApiKey_run.
  rewrite Hc. cbn [default]. unfold_M.
  destruct (process_env_API_KEY env); reflexivity.
Qed.

Lemma connect_body_credential env k s :
  credential env = Some k ->
  connect_body env s
  = let s1 := set_outputContextRef (Some (mkAudioContext 24000))
                (set_inputContextRef (Some (mkAudioContext 16000))
                   (set_messages [] (set_error None s))) in
    let t1 := [NewAudioContext (mkAudioContext 16000);
               NewAudioContext (mkAudioContext 24000); GetUserMedia] in
    match getUserMedia env with
    | None => (s1, t1, Throw (Error "NotAllowedError"))
    | Some st =>
        (set_processorRef (Some (mkScriptProcessor 4096))
           (set_inputSourceRef (Some (mkMediaStreamSource st))
              (set_sessionRef (Some (live_connect env))
                 (set_streamRef (Some st) s1))),
         t1 ++ [LiveConnect], Return tt)
    end.
Proof.
  intros Hc. unfold connect_body.
  erewrite bind_Return by reflexivity.
  erewrite bind_Return by reflexivity.
  erewrite bind_Return by apply readApiKey_run.
  rewrite Hc. cbn [default].
  unfold credential in Hc. apply truthy_Some_nonempty in Hc as [Hp Hk].
  rewrite (bool_decide_eq_false_2 _ Hk).
  destruct (process_env_API_KEY env) as [[k'|]|]; try discriminate.
  destruct (getUserMedia env); reflexivity.
Qed.

Lemma connect_caught env s sb tb e :
  connect_body env s = (sb, tb, Throw e) ->
  connect stop_throws env s
  = (torn_down (set_error (Some init_failed_message) sb),
     tb ++ ConsoleError (exn_message e) :: teardown_effects sb, Return tt).
Proof.
  intros Hb. unfold connect, try_catch. rewrite Hb.
  erewrite bind_Return by reflexivity.
  erewrite bind_Return by reflexivity.
  unfold unawaited. rewrite disconnect_run. reflexivity.
Qed.

Lemma connect_returned env s sb tb :
  connect_body env s = (sb, tb, Return tt) ->
  connect stop_throws env s = (sb, tb, Return tt).
Proof. intros Hb. unfold connect, try_catch. rewrite Hb. reflexivity. Qed.

Lemma teardown_acquires_nothing s :
  Forall (fun e => acquires e = false) (teardown_effects s).
Proof.
  unfold teardown_effects, capture_effects, transport_close_effects.
  rewrite !Forall_app. repeat split; repeat case_match;
    repeat constructor; apply Forall_fmap, Forall_true; reflexivity.
Qed.

(** C7. With no credential ([process] undefined, or [API_KEY] unset or
    empty) the body of [connect] throws the missing-key error before it
    creates an audio context, asks for the microphone or opens the
    transport: nothing was acquired and the resources are as they were.
    [connect] catches the error, returns normally and surfaces it: the
    error is logged, the error state holds the failure message, and
    after the teardown the session is not connected. *)
Theorem connect_without_credential env (s : State) :
  credential env = None ->
  let b := connect_body env s in
  let r := connect stop_throws env s in
  outcome_of b = Throw (Error missing_key_message) /\
  Forall (fun e => acquires e = false) (trace_of b) /\
  resources (state_of b) = resources s /\
  outcome_of r = Return tt /\
  ConsoleError missing_key_message ∈ trace_of r /\
  error (state_of r) = Some init_failed_message /\
  Forall (fun e => acquires e = false) (trace_of r) /\
  isConnected (state_of r) = false.
Proof.
  intros Hc b r. subst b r.
  rewrite (connect_caught _ _ _ _ _ (connect_body_no_credential _ s Hc)).
  rewrite (connect_body_no_credential _ s Hc).
  unfold state_of, trace_of, outcome_of. cbn [fst snd].
  assert (Forall (fun e => acquires e = false)
            (if process_env_API_KEY env is None
             then [ConsoleError "process.env is not defined"] else [])) as Hpre
    by (case_match; repeat constructor).
  repeat split; try assumption.
  - rewrite elem_of_app. right. apply list_elem_of_here.
  - rewrite Forall_app. split; [assumption|].
    constructor; [reflexivity|]. apply teardown_acquires_nothing.
Qed.

(** C8 (amended). When the credential is present and the microphone is
    refused, the body of [connect] throws after both audio contexts have
    been created and stored, and before the transport is opened.
    [connect] catches the error, returns normally, sets the failure
    message, and its teardown closes both contexts: at the end no
    resource is held and the session is not connected. *)
Theorem connect_microphone_denied env k (s : State) :
  credential env = Some k ->
  getUserMedia env = None ->
  let b := connect_body env s in
  let r := connect stop_throws env s in
  outcome_of b = Throw (Error "NotAllowedError") /\
  inputContextRef (state_of b) = Some (mkAudioContext 16000) /\
  outputContextRef (state_of b) = Some (mkAudioContext 24000) /\
  (LiveConnect ∉ trace_of r) /\
  outcome_of r = Return tt /\
  error (state_of r) = Some init_failed_message /\
  isConnected (state_of r) = false /\
  resources (state_of r) = no_resources /\
  ContextClose (mkAudioContext 16000) ∈ trace_of r /\
  ContextClose (mkAudioContext 24000) ∈ trace_of r.
Proof.
  intros Hc Hm b r. subst b r.
  pose proof (connect_body_credential _ _ s Hc) as Hb.
  rewrite Hm in Hb. cbv zeta in Hb.
  rewrite (connect_caught _ _ _ _ _ Hb), Hb.
  unfold state_of, trace_of, outcome_of. cbn [fst snd].
  repeat split.
  - intros Hin. apply elem_of_app in Hin as [Hin|Hin].
    + repeat (apply elem_of_cons in Hin as [Hin|Hin]; [discriminate|]).
      inversion Hin.
    + apply elem_of_cons in Hin as [Hin|Hin]; [discriminate|].
      pose proof (teardown_acquires_nothing
        (set_outputContextRef (Some (mkAudioContext 24000))
           (set_inputContextRef (Some (mkAudioContext 16000))
              (set_messages [] (set_error None s))))) as Hf.
      rewrite Forall_forall in Hf. apply Hf in Hin. discriminate.
  - rewrite elem_of_app. right. apply list_elem_of_further.
    unfold teardown_effects, capture_effects. cbn.
    rewrite !elem_of_app. left. right. right. right. apply list_elem_of_here.
  - rewrite elem_of_app. right. apply list_elem_of_further.
    unfold teardown_effects. cbn.
    rewrite !elem_of_app. right. right. right. apply list_elem_of_here.
Qed.

(** ** Transcript *)

Lemma onmessage_messages p clock message s :
  messages (state_of (onmessage decode stop_throws p clock message s))
  = if serverContent message is Some sc
    then log_after clock sc (messages s) else messages s.
Proof. rewrite onmessage_run. apply message_phase_messages. Qed.

Lemma onmessage_delta p clock r t s :
  t <> "" ->
  messages (state_of (onmessage decode stop_throws p clock (deltaMessage r t) s))
  = mergeDelta clock r t (messages s).
Proof. intros Ht. rewrite onmessage_messages. apply delta_log, Ht. Qed.

Lemma onmessage_turnComplete p clock s :
  messages (state_of (onmessage decode stop_throws p clock turnCompleteMessage s))
  = turnCompleteUpdater (messages s).
Proof. rewrite onmessage_messages. reflexivity. Qed.

(** A fragment whose text is the empty string is not a delta for the
    handler: the log stays as it is. *)
Lemma onmessage_empty_fragment p clock r s :
  messages (state_of (onmessage decode stop_throws p clock (deltaMessage r "") s))
  = messages s.
Proof. rewrite onmessage_messages. destruct r; reflexivity. Qed.

(** C3. A transcript delta (a fragment with text) whose role is that of
    the last entry, when that entry is open, is appended to the text of
    that entry; a delta that arrives on an empty log, or after an entry
    of the other role, or after a final entry, opens a new open entry;
    turn-complete marks an open last entry final and changes nothing
    otherwise.  The sequence delta(user,"Hi"), delta(user," there"),
    turnComplete, delta(model,"Hello!") on an empty log yields the log
    [{user,"Hi there",final}; {model,"Hello!",open}]. *)
Theorem transcript_merge :
  (forall p clock r t init m (s : State),
     t <> "" -> messages s = init ++ [m] ->
     role m = r -> isFinal_truthy m = false ->
     messages (state_of
       (onmessage decode stop_throws p clock (deltaMessage r t) s))
     = init ++ [mkChatMessage (id m) (role m) (text m +:+ t) (timestamp m)
                  (isFinal m)]) /\
  (forall p clock r t (s : State),
     t <> "" ->
     (messages s = [] \/
      exists init m, messages s = init ++ [m] /\
                     (role m <> r \/ isFinal_truthy m = true)) ->
     messages (state_of
       (onmessage decode stop_throws p clock (deltaMessage r t) s))
     = messages s ++
       [mkChatMessage (pretty (dateNow clock) +:+ role_suffix r) r t
          (newDate clock) (Some false)]) /\
  (forall p clock init m (s : State),
     messages s = init ++ [m] -> isFinal_truthy m = false ->
     messages (state_of
       (onmessage decode stop_throws p clock turnCompleteMessage s))
     = init ++ [mkChatMessage (id m) (role m) (text m) (timestamp m)
                  (Some true)]) /\
  (forall p clock (s : State),
     (messages s = [] \/
      exists init m, messages s = init ++ [m] /\ isFinal_truthy m = true) ->
     messages (state_of
       (onmessage decode stop_throws p clock turnCompleteMessage s))
     = messages s) /\
  (forall p1 p2 p3 p4 c1 c2 c3 c4 (s : State),
     messages s = [] ->
     messages (run decode stop_throws
       [OnMessage p1 c1 (deltaMessage user "Hi");
        OnMessage p2 c2 (deltaMessage user " there");
        OnMessage p3 c3 turnCompleteMessage;
        OnMessage p4 c4 (deltaMessage model "Hello!")] s).1
     = [mkChatMessage (pretty (dateNow c1) +:+ "-user") user "Hi there"
          (newDate c1) (Some true);
        mkChatMessage (pretty (dateNow c4) +:+ "-model") model "Hello!"
          (newDate c4) (Some false)]).
Proof.
  repeat split.
  - intros p clock r t init m s Ht Hl Hr Hf.
    rewrite onmessage_delta, Hl by assumption.
    apply mergeDelta_append; assumption.
  - intros p clock r t s Ht Hl.
    rewrite onmessage_delta by assumption. apply mergeDelta_new, Hl.
  - intros p clock init m s Hl Hf.
    rewrite onmessage_turnComplete, Hl. apply turnCompleteUpdater_open, Hf.
  - intros p clock s Hl.
    rewrite onmessage_turnComplete. apply turnCompleteUpdater_closed, Hl.
  - intros p1 p2 p3 p4 c1 c2 c3 c4 s Hl.
    rewrite !run_state_cons. cbn [run fst handle].
    rewrite onmessage_delta by discriminate.
    rewrite onmessage_turnComplete.
    rewrite !onmessage_delta by discriminate.
    rewrite Hl. reflexivity.
Qed.

(** C9. When one message carries a fragment on the input side and a
    fragment on the output side, the transcript is what the input
    fragment alone gives: the updater merges the user fragment and
    returns before it looks at the output fragment, so the log is the
    same as for the message without its output fragment. *)
Theorem input_fragment_wins p clock message sc i o (s : State) :
  serverContent message = Some sc ->
  inputTx_of sc = Some i ->
  outputTx_of sc = Some o ->
  let r := onmessage decode stop_throws p clock message s in
  messages (state_of r)
  = messages (state_of
      (onmessage decode stop_throws p clock (without_output message) s)) /\
  messages (state_of r)
  = (if interrupted sc then interruptedUpdater else fun l => l)
      ((if turnComplete sc then turnCompleteUpdater else fun l => l)
         (mergeDelta clock user i (messages s))) /\
  (turnComplete sc = false -> interrupted sc = false ->
   messages (state_of r) = mergeDelta clock user i (messages s)).
Proof.
  intros Hsc Hin Hout r. subst r.
  rewrite !onmessage_messages. unfold without_output.
  cbn [serverContent]. rewrite Hsc. cbn [fmap option_fmap option_map].
  unfold log_after, transcriptionUpdater.
  cbn [inputTranscription outputTranscription turnComplete interrupted].
  unfold inputTx_of in Hin. unfold outputTx_of in Hout.
  unfold is_truthy. rewrite Hin, Hout. cbn [orb].
  repeat split.
  - destruct (turnComplete sc), (interrupted sc); reflexivity.
  - intros -> ->. reflexivity.
Qed.

(** ** Audio payloads that fail to decode *)

(** C6. In a session (an output context exists), a message whose audio
    payload fails to decode is handled without raising: the failure is
    logged, no segment is scheduled for it, and the connection state,
    the error state and every resource of the session are what they
    were.  A following message whose payload decodes is then scheduled at
    the cursor. *)
Theorem malformed_audio_is_dropped p clock1 clock2 m1 m2 b1 b2 buf ctx
    (s : State) :
  outputContextRef s = Some ctx ->
  truthy (base64Audio_of m1) = Some b1 -> decode b1 = None ->
  truthy (base64Audio_of m2) = Some b2 -> decode b2 = Some buf ->
  let r1 := onmessage decode stop_throws p clock1 m1 s in
  let r2 := onmessage decode stop_throws p clock2 m2 (state_of r1) in
  outcome_of r1 = Return tt /\
  ConsoleError "Audio decoding error" ∈ trace_of r1 /\
  starts (trace_of r1) = [] /\
  isConnected (state_of r1) = isConnected s /\
  error (state_of r1) = error s /\
  resources (state_of r1) = resources s /\
  outcome_of r2 = Return tt /\
  starts (trace_of r2)
  = [(snap (nextStartTimeRef (state_of r1)) (currentTime clock2),
      duration buf)].
Proof.
  intros Hctx Hb1 Hd1 Hb2 Hd2 r1 r2.
  assert (resources (state_of r1) = resources s) as Hres.
  { subst r1. rewrite onmessage_run. apply message_phase_session. }
  assert (outputContextRef (state_of r1) = Some ctx) as Hctx1
    by (unfold resources in Hres; congruence).
  pose proof (after_content_frame clock1 m1 (calls_of m1) s)
    as (_ & _ & _ & Hres' & _).
  assert (outputContextRef (after_content clock1 m1 (calls_of m1) s) = Some ctx)
    as Hctx2 by (unfold resources in Hres'; congruence).
  destruct (audio_phase_failed clock1 m1 b1 ctx _ Hb1 Hctx2 Hd1)
    as (Ht & _).
  repeat split.
  - subst r1. rewrite onmessage_run. reflexivity.
  - subst r1. rewrite onmessage_run. unfold trace_of. cbn [fst snd].
    unfold message_phase.
    destruct (interrupted_of m1); cbn [snd]; rewrite Ht, !elem_of_app;
      [right; left|right]; apply list_elem_of_here.
  - subst r1. rewrite onmessage_run. unfold trace_of. cbn [fst snd].
    rewrite message_phase_starts, Ht. reflexivity.
  - subst r1. rewrite onmessage_run. apply message_phase_session.
  - subst r1. rewrite onmessage_run. apply message_phase_session.
  - exact Hres.
  - subst r2. rewrite onmessage_run. reflexivity.
  - subst r2. eapply onmessage_starts_decoded; eassumption.
Qed.

(** ** The speaking state *)

Lemma message_phase_speaking p clock message s :
  interrupted_of message = false ->
  isSpeaking s = true ->
  isSpeaking (message_phase decode p clock message s).1 = true.
Proof.
  intros Hi Hs. unfold message_phase. rewrite Hi. cbn [fst].
  pose proof (after_content_frame clock message (calls_of message) s)
    as (_ & Hsp & _).
  set (s2 := after_content _ _ _ _) in *. rewrite Hs in Hsp.
  unfold audio_phase. repeat case_match; cbn; auto.
Qed.

Lemma handle_keeps_speaking e s :
  keeps_speaking e = true ->
  isSpeaking s = true ->
  isSpeaking (state_of (handle decode stop_throws e s)) = true.
Proof.
  destruct e as [env| | |p clock message| | |source|p level base64Data];
    cbn [keeps_speaking handle]; try discriminate.
  - intros Hk Hs. apply bool_decide_eq_true_1 in Hk as [[k Hc] [st Hm]].
    pose proof (connect_body_credential _ _ s Hc) as Hb.
    rewrite Hm in Hb. cbv zeta in Hb.
    rewrite (connect_returned _ _ _ _ Hb). exact Hs.
  - intros _ Hs. rewrite onopen_run. exact Hs.
  - intros Hi Hs. apply negb_true_iff in Hi. rewrite onmessage_run.
    apply message_phase_speaking; assumption.
  - intros _ Hs. rewrite onaudioprocess_run. exact Hs.
Qed.

Lemma run_keeps_speaking es s :
  Forall (fun e => keeps_speaking e = true) es ->
  isSpeaking s = true ->
  isSpeaking (run decode stop_throws es s).1 = true.
Proof.
  intros Hes. revert s. induction Hes as [|e es He Hes IH]; intros s Hs.
  - exact Hs.
  - rewrite run_state_cons. apply IH, handle_keeps_speaking; assumption.
Qed.

(** C10. A message with an audio payload, in a session with an output
    context, sets the speaking state to true whether or not the payload
    decodes: the state is set before the decode is attempted, by the
    audio block of the handler and, without an interruption in the same
    message, at the end of the handler.  When the
    decode fails nothing is scheduled and the in-flight set is what it
    was, so no completion callback is added.  A true speaking state then
    stays true over any sequence of messages without interruption (and
    of capture frames, transport openings and successful connects); it
    is reset by the
    end of the last segment in flight, by an interruption and by
    [disconnect]. *)
Theorem speaking_until_reset :
  (forall clock message b64 ctx (s : State),
     truthy (base64Audio_of message) = Some b64 ->
     outputContextRef s = Some ctx ->
     isSpeaking (state_of (handleAudio decode clock message s)) = true) /\
  (forall p clock message b64 ctx (s : State),
     truthy (base64Audio_of message) = Some b64 ->
     outputContextRef s = Some ctx ->
     interrupted_of message = false ->
     let r := onmessage decode stop_throws p clock message s in
     isSpeaking (state_of r) = true /\
     (decode b64 = None ->
      scheduledSourcesRef (state_of r) = scheduledSourcesRef s /\
      starts (trace_of r) = [])) /\
  (forall es (s : State),
     Forall (fun e => keeps_speaking e = true) es ->
     isSpeaking s = true ->
     isSpeaking (run decode stop_throws es s).1 = true) /\
  (forall source (s : State),
     scheduledSourcesRef s = [source] ->
     isSpeaking (state_of (onended source s)) = false) /\
  (forall p clock message (s : State),
     interrupted_of message = true ->
     isSpeaking (state_of (onmessage decode stop_throws p clock message s))
     = false) /\
  (forall s : State,
     isSpeaking (state_of (disconnect stop_throws s)) = false).
Proof.
  split; [|split; [|split; [|split; [|split]]]].
  - intros clock message b64 ctx s Hb Hctx. rewrite handleAudio_run.
    unfold state_of, audio_phase. cbn [fst]. rewrite Hb, Hctx.
    case_match; reflexivity.
  - intros p clock message b64 ctx s Hb Hctx Hi r. subst r.
    rewrite onmessage_run. unfold state_of, trace_of. cbn [fst snd].
    rewrite message_phase_starts.
    unfold message_phase. rewrite Hi. cbn [fst].
    pose proof (after_content_frame clock message (calls_of message) s)
      as (_ & _ & _ & Hres & _ & Hsrc & _).
    set (s2 := after_content _ _ _ _) in *.
    assert (outputContextRef s2 = Some ctx) as Hctx2
      by (unfold resources in Hres; congruence).
    split.
    + unfold audio_phase. rewrite Hb, Hctx2. case_match; reflexivity.
    + intros Hd.
      destruct (audio_phase_failed clock message b64 ctx s2 Hb Hctx2 Hd)
        as (-> & -> & _). split; [exact Hsrc|reflexivity].
  - apply run_keeps_speaking.
  - intros source s Hsrc. rewrite onended_run, Hsrc.
    unfold set_delete. cbn [List.filter]. rewrite Nat.eqb_refl. reflexivity.
  - intros p clock message s Hi. rewrite onmessage_run.
    unfold state_of, message_phase. rewrite Hi. reflexivity.
  - intros s. rewrite disconnect_run. reflexivity.
Qed.

End Properties.

(** ** The properties on sample inputs *)

Ltac split_all := repeat match goal with |- _ /\ _ => split end.

(** The sample connected state is the one a successful [connect]
    followed by the opening of the transport leaves. *)
Lemma connected_state_reached :
  (run decode_payload always_throws [Connect sample_env; OnOpen] initialState).1
  = connected_state.
Proof. vm_compute. reflexivity. Qed.

(** Two payloads of three samples each, the second arriving when the
    clock is behind the cursor: it is laid right after the first. *)
Lemma playback_monotone_witness :
  let es := [OnMessage sample_promise (sample_clock (1 # 2)) (audioMessage "AAABAP9/");
             OnEnded 0%nat;
             OnMessage sample_promise (sample_clock (1 # 4)) (audioMessage "AAABAP9/")] in
  Forall (fun e => no_stop e = true) es /\
  starts (run decode_payload always_throws es connected_state).2
  = [(1 # 2, 3 # 24000); (24006 # 48000, 3 # 24000)] /\
  ((1 # 2) + (3 # 24000) <= 24006 # 48000)%Q /\ (1 # 2 <= 24006 # 48000)%Q.
Proof.
  cbv zeta.
  assert (Forall (fun e => no_stop e = true)
            [OnMessage sample_promise (sample_clock (1 # 2)) (audioMessage "AAABAP9/");
             OnEnded 0%nat;
             OnMessage sample_promise (sample_clock (1 # 4)) (audioMessage "AAABAP9/")])
    as Hes by (repeat constructor).
  split; [exact Hes|]. split; [vm_compute; reflexivity|].
  exact (proj2 (playback_monotone decode_payload always_throws) _
           connected_state Hes 0%nat _ _ _ _ eq_refl eq_refl).
Defined.

(** The interruption scenario of the spec, with two segments in flight
    whose [stop()] throws, and with none in flight. *)
Lemma interrupted_marks_and_stops_witness :
  let r := onmessage decode_payload always_throws sample_promise
             (sample_clock 7) interruptedSignal speaking_state in
  let r0 := onmessage decode_payload always_throws sample_promise
              (sample_clock 7) interruptedSignal
              (set_messages [open_model_entry] connected_state) in
  messages speaking_state = [] ++ [open_model_entry] /\
  role open_model_entry = model /\
  isFinal_truthy open_model_entry = false /\
  outcome_of r = Return tt /\
  messages (state_of r)
  = [mkChatMessage "1700000000000-model" model "Let me expl ..."
       1700000000001 (Some true)] /\
  scheduledSourcesRef (state_of r) = [] /\
  nextStartTimeRef (state_of r) = 0%Q /\
  isSpeaking (state_of r) = false /\
  SourceStop 1%nat ∈ trace_of r /\
  outcome_of r0 = Return tt /\
  scheduledSourcesRef (state_of r0) = [].
Proof.
  cbv zeta.
  pose proof (interrupted_marks_and_stops decode_payload always_throws
    sample_promise (sample_clock 7) interruptedSignal _ [] open_model_entry
    speaking_state eq_refl eq_refl eq_refl eq_refl eq_refl eq_refl eq_refl
    eq_refl) as (H1 & H2 & H3 & H4 & H5 & H6).
  pose proof (interrupted_marks_and_stops decode_payload always_throws
    sample_promise (sample_clock 7) interruptedSignal _ [] open_model_entry
    (set_messages [open_model_entry] connected_state)
    eq_refl eq_refl eq_refl eq_refl eq_refl eq_refl eq_refl
    eq_refl) as (G1 & _ & G3 & _).
  split_all; try assumption;
    try (apply H6; apply list_elem_of_further, list_elem_of_here);
    reflexivity.
Defined.

(** The transcript scenario of the spec. *)
Lemma transcript_merge_witness :
  messages connected_state = [] /\
  messages (run decode_payload always_throws
    [OnMessage sample_promise (sample_clock 0) (deltaMessage user "Hi");
     OnMessage sample_promise (sample_clock 0) (deltaMessage user " there");
     OnMessage sample_promise (sample_clock 0) turnCompleteMessage;
     OnMessage sample_promise (sample_clock 0) (deltaMessage model "Hello!")]
    connected_state).1
  = [mkChatMessage "1700000000000-user" user "Hi there" 1700000000001
       (Some true);
     mkChatMessage "1700000000000-model" model "Hello!" 1700000000001
       (Some false)].
Proof.
  split; [reflexivity|].
  exact (proj2 (proj2 (proj2 (proj2
    (transcript_merge decode_payload always_throws))))
    sample_promise sample_promise sample_promise sample_promise
    (sample_clock 0) (sample_clock 0) (sample_clock 0) (sample_clock 0)
    connected_state eq_refl).
Defined.

(** The unrecognized-value scenario of the spec, and a recognized one. *)
Lemma mode_tool_call_acknowledged_witness :
  let r := onmessage decode_payload always_throws sample_promise
             (sample_clock 0) (modeCallMessage "call-1" "Nonsense Mode")
             connected_state in
  let r' := onmessage decode_payload always_throws sample_promise
              (sample_clock 0) (modeCallMessage "call-2" "Correction Mode")
              connected_state in
  toolCall (modeCallMessage "call-1" "Nonsense Mode")
  = Some (mkToolCall
      [{| fc_id := Some "call-1"; fc_name := Some "setTeachingMode";
          fc_args := {[ "mode" := "Nonsense Mode" ]} |}]) /\
  acks (trace_of r)
  = [(Some "call-1", Some "setTeachingMode", "Mode updated")] /\
  mode_changes (trace_of r) = [] /\
  currentMode (state_of r) = currentMode connected_state /\
  acks (trace_of r')
  = [(Some "call-2", Some "setTeachingMode", "Mode updated")] /\
  mode_changes (trace_of r') = [CORRECTION] /\
  currentMode (state_of r') = CORRECTION.
Proof.
  cbv zeta.
  pose proof (mode_tool_call_acknowledged decode_payload always_throws
    sample_session (sample_clock 0) (modeCallMessage "call-1" "Nonsense Mode")
    _ connected_state eq_refl) as (_ & H2 & H3 & H4 & _).
  pose proof (mode_tool_call_acknowledged decode_payload always_throws
    sample_session (sample_clock 0) (modeCallMessage "call-2" "Correction Mode")
    _ connected_state eq_refl) as (_ & G2 & G3 & G4 & _).
  split_all; first [assumption|reflexivity].
Defined.

(** Teardown of a session with two segments in flight, twice. *)
Lemma disconnect_idempotent_witness :
  let r1 := disconnect always_throws speaking_state in
  let r2 := disconnect always_throws (state_of r1) in
  outcome_of r1 = Return tt /\ outcome_of r2 = Return tt /\
  state_of r2 = state_of r1 /\
  trace_of r1
  = [ProcessorDisconnect; InputSourceDisconnect; TrackStop 0;
     ContextClose (mkAudioContext 16000); SourceStop 0; SourceStop 1;
     Later SessionClose; ContextClose (mkAudioContext 24000);
     ModeChange IDLE] /\
  trace_of r2 = [ModeChange IDLE].
Proof.
  cbv zeta.
  pose proof (disconnect_idempotent always_throws speaking_state)
    as (H1 & H2 & H3 & _ & H5 & H6 & _).
  split_all; first [assumption|reflexivity].
Defined.

(** The malformed-audio scenario of the spec: a payload of one byte,
    then a payload of three samples. *)
Lemma malformed_audio_is_dropped_witness :
  let r1 := onmessage decode_payload always_throws sample_promise
              (sample_clock (1 # 2)) (audioMessage "AA==") connected_state in
  let r2 := onmessage decode_payload always_throws sample_promise
              (sample_clock 1) (audioMessage "AAABAP9/") (state_of r1) in
  decode_payload "AA==" = None /\
  outcome_of r1 = Return tt /\
  starts (trace_of r1) = [] /\
  isConnected (state_of r1) = true /\
  resources (state_of r1) = resources connected_state /\
  outcome_of r2 = Return tt /\
  starts (trace_of r2) = [(1%Q, 3 # 24000)].
Proof.
  cbv zeta.
  pose proof (malformed_audio_is_dropped decode_payload always_throws
    sample_promise (sample_clock (1 # 2)) (sample_clock 1)
    (audioMessage "AA==") (audioMessage "AAABAP9/") "AA==" "AAABAP9/" _ _
    connected_state eq_refl eq_refl eq_refl eq_refl eq_refl)
    as (H1 & _ & H3 & H4 & _ & H6 & H7 & H8).
  split_all; first [assumption|reflexivity].
Defined.

(** [connect] with [API_KEY] unset. *)
Lemma connect_without_credential_witness :
  let b := connect_body no_key_env initialState in
  let r := connect always_throws no_key_env initialState in
  credential no_key_env = None /\
  outcome_of b = Throw (Error missing_key_message) /\
  trace_of b = [] /\
  resources (state_of b) = no_resources /\
  outcome_of r = Return tt /\
  error (state_of r) = Some init_failed_message /\
  trace_of r = [ConsoleError missing_key_message; ModeChange IDLE] /\
  isConnected (state_of r) = false.
Proof.
  cbv zeta.
  pose proof (connect_without_credential always_throws no_key_env
    initialState eq_refl) as (H1 & _ & H3 & H4 & _ & H6 & _ & H8).
  split_all; first [assumption|reflexivity].
Defined.

(** [connect] with the microphone refused, on a fresh hook. *)
Lemma connect_microphone_denied_witness :
  let r := connect always_throws no_microphone_env initialState in
  credential no_microphone_env = Some "key" /\
  getUserMedia no_microphone_env = None /\
  outcome_of r = Return tt /\
  error (state_of r) = Some init_failed_message /\
  isConnected (state_of r) = false /\
  resources (state_of r) = no_resources /\
  trace_of r
  = [NewAudioContext (mkAudioContext 16000);
     NewAudioContext (mkAudioContext 24000); GetUserMedia;
     ConsoleError "NotAllowedError";
     ContextClose (mkAudioContext 16000);
     ContextClose (mkAudioContext 24000); ModeChange IDLE].
Proof.
  cbv zeta.
  pose proof (connect_microphone_denied always_throws no_microphone_env
    "key" initialState eq_refl eq_refl)
    as (_ & _ & _ & _ & H5 & H6 & H7 & H8 & _).
  split_all; first [assumption|reflexivity].
Defined.

(** C8, as stated, fails: on a fresh hook with the microphone refused,
    the body of [connect] has created and stored both audio contexts
    when it throws, so resources were committed before the abort. *)
Lemma connect_microphone_denied_commits_contexts :
  let b := connect_body no_microphone_env initialState in
  getUserMedia no_microphone_env = None /\
  outcome_of b = Throw (Error "NotAllowedError") /\
  resources initialState = no_resources /\
  resources (state_of b) <> resources initialState /\
  inputContextRef (state_of b) = Some (mkAudioContext 16000) /\
  outputContextRef (state_of b) = Some (mkAudioContext 24000) /\
  trace_of b
  = [NewAudioContext (mkAudioContext 16000);
     NewAudioContext (mkAudioContext 24000); GetUserMedia].
Proof. cbv zeta. repeat split. discriminate. Qed.

(** A message with "Hi" on the input side and "Hello" on the output
    side leaves one open user entry and no model entry. *)
Lemma input_fragment_wins_witness :
  let r := onmessage decode_payload always_throws sample_promise
             (sample_clock 0) (bothSidesMessage "Hi" "Hello") connected_state in
  serverContent (bothSidesMessage "Hi" "Hello")
  = Some {| inputTranscription := Some (mkTranscription (Some "Hi"));
            outputTranscription := Some (mkTranscription (Some "Hello"));
            turnComplete := false; interrupted := false; modelTurn := None |} /\
  messages (state_of r)
  = [mkChatMessage "1700000000000-user" user "Hi" 1700000000001 (Some false)].
Proof.
  cbv zeta. split; [reflexivity|].
  exact (proj2 (proj2 (input_fragment_wins decode_payload always_throws
    sample_promise (sample_clock 0) (bothSidesMessage "Hi" "Hello") _
    "Hi" "Hello" connected_state eq_refl eq_refl eq_refl)) eq_refl eq_refl).
Defined.

(** A payload that fails to decode while nothing is in flight: the
    speaking state is true and stays true over the next deltas. *)
Lemma speaking_until_reset_witness :
  let r := onmessage decode_payload always_throws sample_promise
             (sample_clock 1) (audioMessage "AA==") connected_state in
  let es := [OnMessage sample_promise (sample_clock 2) (deltaMessage model "Hello");
             OnMessage sample_promise (sample_clock 3) turnCompleteMessage] in
  decode_payload "AA==" = None /\
  scheduledSourcesRef connected_state = [] /\
  isSpeaking (state_of r) = true /\
  scheduledSourcesRef (state_of r) = [] /\
  starts (trace_of r) = [] /\
  Forall (fun e => keeps_speaking e = true) es /\
  isSpeaking (run decode_payload always_throws es (state_of r)).1 = true.
Proof.
  cbv zeta.
  pose proof (speaking_until_reset decode_payload always_throws)
    as (_ & H1 & H2 & _).
  pose proof (H1 sample_promise (sample_clock 1) (audioMessage "AA==") "AA=="
    _ connected_state eq_refl eq_refl eq_refl) as (G1 & G2).
  destruct (G2 eq_refl) as (G3 & G4).
  assert (Forall (fun e => keeps_speaking e = true)
    [OnMessage sample_promise (sample_clock 2) (deltaMessage model "Hello");
     OnMessage sample_promise (sample_clock 3) turnCompleteMessage])
    as Hes by (repeat constructor).
  split_all; try assumption; try exact (H2 _ _ Hes G1); reflexivity.
Defined.

(** * Further properties of the hook *)

Section Further.

Variable decode : string -> option AudioBuffer.
Variable stop_throws : SourceId -> bool.

(** ** Exit paths *)

Lemma onclose_run s :
  onclose stop_throws s
  = (torn_down s, ConsoleLog "Connection closed" :: teardown_effects s,
     Return tt).
Proof.
  unfold onclose. erewrite bind_Return by reflexivity.
  unfold unawaited. rewrite disconnect_run. reflexivity.
Qed.

Lemma onerror_run s :
  onerror stop_throws s
  = (torn_down (set_error (Some "Connection failed. Please try again.") s),
     ConsoleError "Connection error" :: teardown_effects s, Return tt).
Proof.
  unfold onerror. erewrite bind_Return by reflexivity.
  erewrite bind_Return by reflexivity.
  unfold unawaited. rewrite disconnect_run. reflexivity.
Qed.

(** X1. A close of the transport and a transport error go through the
    teardown of [disconnect]: they release exactly what [disconnect]
    releases, in the same order, after one console line, and end in the
    state [disconnect] ends in; the error callback also leaves its
    message in the error state, the close callback leaves the error
    state alone.  Neither raises. *)
Theorem exit_paths_share_teardown (s : State) :
  let d := disconnect stop_throws s in
  let c := onclose stop_throws s in
  let e := onerror stop_throws s in
  outcome_of c = Return tt /\
  state_of c = state_of d /\
  trace_of c = ConsoleLog "Connection closed" :: trace_of d /\
  outcome_of e = Return tt /\
  state_of e
  = set_error (Some "Connection failed. Please try again.") (state_of d) /\
  trace_of e = ConsoleError "Connection error" :: trace_of d /\
  resources (state_of c) = no_resources /\
  resources (state_of e) = no_resources.
Proof.
  cbv zeta. rewrite onclose_run, onerror_run, disconnect_run.
  unfold state_of, trace_of, outcome_of. cbn [fst snd].
  repeat split.
Qed.

(** ** A successful [connect] *)

Lemma connect_success_run env k st s :
  credential env = Some k ->
  getUserMedia env = Some st ->
  connect stop_throws env s
  = (connect_succeeded env st s,
     [NewAudioContext (mkAudioContext 16000);
      NewAudioContext (mkAudioContext 24000); GetUserMedia; LiveConnect],
     Return tt).
Proof.
  intros Hc Hm.
  pose proof (connect_body_credential _ _ s Hc) as Hb.
  rewrite Hm in Hb. cbv zeta in Hb.
  rewrite (connect_returned _ _ _ _ _ Hb). reflexivity.
Qed.

(** X2. When the credential is present and the microphone is granted,
    [connect] returns normally after creating the two audio contexts,
    asking for the microphone and opening the transport, in that order
    and once each; it releases nothing, so handles stored by an earlier
    [connect] are overwritten without being closed.  It stores every
    resource, clears the error and the transcript, and leaves the
    connection state, the mode and the playback state as they were: the
    session is marked connected, in Conversation mode, only by the
    transport's open callback. *)
Theorem connect_success env k st (s : State) :
  credential env = Some k ->
  getUserMedia env = Some st ->
  let r := connect stop_throws env s in
  let o := onopen (state_of r) in
  outcome_of r = Return tt /\
  trace_of r
  = [NewAudioContext (mkAudioContext 16000);
     NewAudioContext (mkAudioContext 24000); GetUserMedia; LiveConnect] /\
  Forall (fun e => releases e = false) (trace_of r) /\
  resources (state_of r)
  = (Some (mkAudioContext 16000), Some (mkAudioContext 24000), Some st,
     Some (live_connect env), Some (mkMediaStreamSource st),
     Some (mkScriptProcessor 4096)) /\
  error (state_of r) = None /\
  messages (state_of r) = [] /\
  isConnected (state_of r) = isConnected s /\
  currentMode (state_of r) = currentMode s /\
  isSpeaking (state_of r) = isSpeaking s /\
  nextStartTimeRef (state_of r) = nextStartTimeRef s /\
  scheduledSourcesRef (state_of r) = scheduledSourcesRef s /\
  isConnected (state_of o) = true /\
  currentMode (state_of o) = CONVERSATION /\
  resources (state_of o) = resources (state_of r).
Proof.
  intros Hc Hm r o. subst r o.
  rewrite (connect_success_run _ _ _ s Hc Hm).
  unfold state_of, trace_of, outcome_of. cbn [fst snd].
  rewrite onopen_run. cbn [fst snd].
  repeat split. repeat constructor.
Qed.

Lemma connect_cases env s :
  (exists k st, credential env = Some k /\ getUserMedia env = Some st /\
     connect stop_throws env s
     = (connect_succeeded env st s,
        [NewAudioContext (mkAudioContext 16000);
         NewAudioContext (mkAudioContext 24000); GetUserMedia; LiveConnect],
        Return tt)) \/
  ((credential env = None \/ getUserMedia env = None) /\
   exists sb tb e,
     connect_body env s = (sb, tb, Throw e) /\
     messages sb = [] /\
     connect stop_throws env s
     = (torn_down (set_error (Some init_failed_message) sb),
        tb ++ ConsoleError (exn_message e) :: teardown_effects sb, Return tt)).
Proof.
  destruct (credential env) as [k|] eqn:Hc.
  - destruct (getUserMedia env) as [st|] eqn:Hm.
    + left. exists k, st. split; [reflexivity|]. split; [reflexivity|].
      apply (connect_success_run _ _ _ s Hc Hm).
    + right. split; [right; reflexivity|].
      pose proof (connect_body_credential _ _ s Hc) as Hb.
      rewrite Hm in Hb. cbv zeta in Hb.
      eexists _, _, _. split; [exact Hb|]. split; [reflexivity|].
      apply (connect_caught _ _ _ _ _ _ Hb).
  - right. split; [left; reflexivity|].
    pose proof (connect_body_no_credential _ s Hc) as Hb.
    eexists _, _, _. split; [exact Hb|]. split; [reflexivity|].
    apply (connect_caught _ _ _ _ _ _ Hb).
Qed.

(** X3. Every [connect] attempt empties the transcript, whether it
    succeeds or fails, and always returns normally; afterwards the error
    state is empty exactly when the credential was present and the
    microphone granted, and holds the failure message otherwise. *)
Theorem connect_clears_transcript env (s : State) :
  let r := connect stop_throws env s in
  outcome_of r = Return tt /\
  messages (state_of r) = [] /\
  (error (state_of r) = None <->
   is_Some (credential env) /\ is_Some (getUserMedia env)) /\
  (error (state_of r) = None \/ error (state_of r) = Some init_failed_message).
Proof.
  cbv zeta.
  destruct (connect_cases env s)
    as [(k & st & Hc & Hm & ->)|(Hfail & sb & tb & e & Hb & Hmsg & ->)];
    unfold state_of, outcome_of; cbn [fst snd].
  - split; [reflexivity|]. split; [reflexivity|]. split; [|left; reflexivity].
    rewrite Hc, Hm. split; [eauto|reflexivity].
  - split; [reflexivity|]. split; [exact Hmsg|]. split; [|right; reflexivity].
    split; [discriminate|].
    intros [[k Hk] [st Hst]]. destruct Hfail; congruence.
Qed.

(** ** Invariants over sequences of events *)

Lemma run_invariant (P : State -> Prop) (ok : Event -> bool) :
  (forall e s, ok e = true -> P s ->
     P (state_of (handle decode stop_throws e s))) ->
  forall es s, Forall (fun e => ok e = true) es -> P s ->
    P (run decode stop_throws es s).1.
Proof.
  intros Hstep es s Hes. revert s.
  induction Hes as [|e es He Hes IH]; intros s Hs; [exact Hs|].
  rewrite run_state_cons. apply IH, Hstep; assumption.
Qed.

Lemma handle_Connect env s :
  handle decode stop_throws (Connect env) s = connect stop_throws env s.
Proof. reflexivity. Qed.

(** What an event other than a message does to the state, case by
    case. *)
Lemma handle_state_cases e s :
  let s' := state_of (handle decode stop_throws e s) in
  match e with
  | Connect env =>
      (exists st, s' = connect_succeeded env st s) \/
      (exists sb, s' = torn_down (set_error (Some init_failed_message) sb))
  | Disconnect | OnClose => s' = torn_down s
  | OnError =>
      s' = torn_down (set_error (Some "Connection failed. Please try again.") s)
  | OnOpen => s' = set_currentMode CONVERSATION (set_isConnected true s)
  | OnMessage p clock message => s' = (message_phase decode p clock message s).1
  | OnEnded source =>
      s' = (let l := set_delete source (scheduledSourcesRef s) in
            let s1 := set_scheduledSourcesRef l s in
            if bool_decide (length l = 0%nat) then set_isSpeaking false s1 else s1)
  | OnAudioProcess p level base64Data => s' = set_volume level s
  end.
Proof.
  destruct e as [env| | |p clock message| | |source|p level base64Data];
    cbn [handle]; cbv zeta.
  - destruct (connect_cases env s)
      as [(k & st & _ & _ & ->)|(_ & sb & tb & e & _ & _ & ->)];
      [left; exists st|right; exists sb]; reflexivity.
  - rewrite disconnect_run. reflexivity.
  - rewrite onopen_run. reflexivity.
  - rewrite onmessage_run. reflexivity.
  - rewrite onclose_run. reflexivity.
  - rewrite onerror_run. reflexivity.
  - rewrite onended_run. reflexivity.
  - rewrite onaudioprocess_run. reflexivity.
Qed.

Lemma message_phase_frame p clock message s :
  let s' := (message_phase decode p clock message s).1 in
  isConnected s' = isConnected s /\ error s' = error s /\
  resources s' = resources s /\ volume s' = volume s.
Proof.
  unfold message_phase, after_content, audio_phase, stopped.
  repeat case_match; repeat split.
Qed.



Lemma torn_down_no_resources s : resources (torn_down s) = no_resources.
Proof. reflexivity. Qed.



Lemma set_delete_nil_inv source l :
  set_delete source l <> [] -> l <> [].
Proof. destruct l; [intros H; exact H|discriminate]. Qed.

Lemma handle_speaking_covers_flight e s :
  speaking_covers_flight s ->
  speaking_covers_flight (state_of (handle decode stop_throws e s)).
Proof.
  unfold speaking_covers_flight. intros Hs.
  pose proof (handle_state_cases e s) as H. cbv zeta in H.
  destruct e as [env| | |p clock message| | |source|p level base64Data];
    try (rewrite H; cbn; first [exact Hs|congruence]).
  - destruct H as [(st & ->)|(sb & ->)]; cbn; [exact Hs|congruence].
  - rewrite H. unfold message_phase, after_content, audio_phase, stopped.
    repeat case_match; cbn; first [exact Hs|congruence|reflexivity].
  - rewrite H. cbv zeta. case_bool_decide as Hlen.
    + cbn. intros Hne. exfalso. apply Hne.
      destruct (set_delete source (scheduledSourcesRef s));
        [reflexivity|discriminate].
    + cbn. intros Hne. apply Hs. eapply set_delete_nil_inv, Hne.
Qed.

(** X6. Whenever a scheduled segment is in flight the speaking state is
    on: starting from a state where this holds (such as a fresh hook), it
    holds after every sequence of events, whatever their order. *)
Theorem speaking_covers_flight_kept es (s : State) :
  speaking_covers_flight s ->
  speaking_covers_flight (run decode stop_throws es s).1.
Proof.
  intros Hs.
  apply (run_invariant speaking_covers_flight (fun _ => true)); [| |exact Hs].
  - intros e s0 _. apply handle_speaking_covers_flight.
  - apply Forall_true. reflexivity.
Qed.

Lemma handle_stays_disconnected e s :
  not_open e = true ->
  isConnected s = false ->
  isConnected (state_of (handle decode stop_throws e s)) = false.
Proof.
  intros He Hs. pose proof (handle_state_cases e s) as H. cbv zeta in H.
  destruct e as [env| | |p clock message| | |source|p level base64Data];
    try discriminate; try (rewrite H; cbn; first [exact Hs|reflexivity]).
  - destruct H as [(st & ->)|(sb & ->)]; cbn; [exact Hs|reflexivity].
  - rewrite H. rewrite (proj1 (message_phase_frame p clock message s)).
    exact Hs.
  - rewrite H. cbv zeta. case_match; exact Hs.
Qed.

(** X7. The connection state is turned on by the open callback of the
    transport and by nothing else: from a disconnected state, no sequence
    of events without a transport opening (connects, messages, closes,
    errors, segment ends, capture frames) shows the session as
    connected. *)
Theorem connected_only_by_open es (s : State) :
  Forall (fun e => not_open e = true) es ->
  isConnected s = false ->
  isConnected (run decode stop_throws es s).1 = false.
Proof.
  intros Hes Hs.
  apply (run_invariant (fun s => isConnected s = false) not_open);
    [|exact Hes|exact Hs].
  apply handle_stays_disconnected.
Qed.

(** ** Playback after a teardown *)

Lemma starts_tracks (l : list nat) : starts (TrackStop <$> l) = [].
Proof. induction l; [reflexivity|assumption]. Qed.

Lemma starts_teardown_effects s : starts (teardown_effects s) = [].
Proof.
  unfold teardown_effects, capture_effects, transport_close_effects.
  rewrite !starts_app, starts_stops.
  repeat case_match; rewrite ?starts_tracks; reflexivity.
Qed.

Lemma handle_without_output e s :
  no_connect e = true ->
  outputContextRef s = None ->
  outputContextRef (state_of (handle decode stop_throws e s)) = None /\
  starts (trace_of (handle decode stop_throws e s)) = [].
Proof.
  intros He Hs.
  destruct e as [env| | |p clock message| | |source|p level base64Data];
    try discriminate; cbn [handle].
  - rewrite disconnect_run. split; [reflexivity|apply starts_teardown_effects].
  - rewrite onopen_run. split; [exact Hs|reflexivity].
  - rewrite onmessage_run. unfold state_of, trace_of. cbn [fst snd]. split.
    + pose proof (message_phase_frame p clock message s) as (_ & _ & Hr & _).
      unfold resources in Hr. congruence.
    + rewrite message_phase_starts.
      pose proof (after_content_frame clock message (calls_of message) s)
        as (_ & _ & _ & Hr & _).
      unfold audio_phase.
      replace (outputContextRef
                 (after_content clock message (calls_of message) s))
        with (@None AudioContext) by (unfold resources in Hr; congruence).
      case_match; reflexivity.
  - rewrite onclose_run. split; [reflexivity|apply starts_teardown_effects].
  - rewrite onerror_run. split; [reflexivity|apply starts_teardown_effects].
  - rewrite onended_run. unfold state_of, trace_of. cbn [fst snd].
    split; [case_match; exact Hs|reflexivity].
  - rewrite onaudioprocess_run. unfold state_of, trace_of. cbn [fst snd].
    split; [exact Hs|repeat case_match; reflexivity].
Qed.

(** X8. Without an output context (before the first [connect] and after
    every teardown) no audio is ever scheduled: over any sequence of
    events that contains no new [connect], the audio payloads of late
    messages are ignored, and the output context stays absent. *)
Theorem no_playback_without_output es (s : State) :
  Forall (fun e => no_connect e = true) es ->
  outputContextRef s = None ->
  starts (run decode stop_throws es s).2 = [] /\
  outputContextRef (run decode stop_throws es s).1 = None.
Proof.
  intros Hes. revert s.
  induction Hes as [|e es He Hes IH]; intros s Hs; [split; [reflexivity|exact Hs]|].
  rewrite run_cons. cbn [fst snd]. rewrite starts_app.
  destruct (handle_without_output e s He Hs) as (Hctx & ->).
  apply IH, Hctx.
Qed.

(** ** The two stop routines *)

(** X9. [stopPlayback] and [stopAudioProcessing] never raise, are each
    idempotent (a second call in succession changes nothing and touches
    no device), and work on disjoint parts of the state: run in either
    order they end in the same state. *)
Theorem stop_routines_idempotent (s : State) :
  let p1 := stopPlayback stop_throws s in
  let p2 := stopPlayback stop_throws (state_of p1) in
  let a1 := stopAudioProcessing s in
  let a2 := stopAudioProcessing (state_of a1) in
  outcome_of p1 = Return tt /\ outcome_of a1 = Return tt /\
  state_of p2 = state_of p1 /\ trace_of p2 = [] /\
  state_of a2 = state_of a1 /\ trace_of a2 = [] /\
  state_of (stopPlayback stop_throws (state_of a1))
  = state_of (stopAudioProcessing (state_of p1)) /\
  scheduledSourcesRef (state_of p1) = [] /\
  nextStartTimeRef (state_of p1) = 0%Q /\
  isSpeaking (state_of p1) = false /\
  outputContextRef (state_of p1) = outputContextRef s /\
  outputContextRef (state_of a1) = outputContextRef s /\
  sessionRef (state_of a1) = sessionRef s.
Proof.
  cbv zeta. rewrite !stopPlayback_run, !stopAudioProcessing_run.
  unfold state_of, trace_of, outcome_of. cbn [fst snd].
  repeat split.
Qed.

(** ** The end of segments *)

Lemma elem_of_set_delete x source l :
  x ∈ set_delete source l <-> x ∈ l /\ x <> source.
Proof.
  unfold set_delete. rewrite !list_elem_of_In, List.filter_In.
  rewrite negb_true_iff, Nat.eqb_neq. reflexivity.
Qed.

Lemma onended_sources source s :
  scheduledSourcesRef (state_of (onended source s))
  = set_delete source (scheduledSourcesRef s).
Proof. rewrite onended_run. unfold state_of. cbn [fst]. case_match; reflexivity. Qed.

Lemma run_ended_sources l s x :
  x ∈ scheduledSourcesRef (run decode stop_throws (OnEnded <$> l) s).1 ->
  x ∈ scheduledSourcesRef s /\ x ∉ l.
Proof.
  revert s. induction l as [|a l IH]; intros s; cbn [fmap list_fmap].
  - intros H. split; [exact H|apply not_elem_of_nil].
  - rewrite run_state_cons. intros H. apply IH in H as [H Hl].
    cbn [handle] in H. rewrite onended_sources in H.
    apply elem_of_set_delete in H as [H Ha].
    split; [exact H|]. rewrite not_elem_of_cons. split; assumption.
Qed.

Lemma run_app es1 es2 s :
  (run decode stop_throws (es1 ++ es2) s).1
  = (run decode stop_throws es2 (run decode stop_throws es1 s).1).1.
Proof.
  revert s. induction es1 as [|e es1 IH]; intros s; [reflexivity|].
  cbn [app]. rewrite !run_state_cons. apply IH.
Qed.

(** X10. The end callback of a segment removes that segment from the
    in-flight set and nothing else; it turns the speaking state off only
    when the set is then empty.  Hence once every segment in flight has
    ended, in whatever order and with whatever stale or repeated ends in
    between, the set is empty and the speaking state is off; and while a
    segment other than the ended one is still in flight the speaking
    state is left as it was. *)
Theorem ended_segments_drain :
  (forall l (s : State),
     l <> [] ->
     (forall x, x ∈ scheduledSourcesRef s -> x ∈ l) ->
     let s' := (run decode stop_throws (OnEnded <$> l) s).1 in
     scheduledSourcesRef s' = [] /\ isSpeaking s' = false) /\
  (forall source other (s : State),
     other ∈ scheduledSourcesRef s -> other <> source ->
     let s' := state_of (onended source s) in
     isSpeaking s' = isSpeaking s /\
     other ∈ scheduledSourcesRef s' /\
     source ∉ scheduledSourcesRef s').
Proof.
  split.
  - intros l s Hne Hall s'. subst s'.
    destruct (exists_last Hne) as (l' & a & ->).
    rewrite fmap_app, run_app. cbn [fmap list_fmap run handle fst].
    set (s1 := (run decode stop_throws (OnEnded <$> l') s).1).
    assert (set_delete a (scheduledSourcesRef s1) = []) as Hempty.
    { destruct (set_delete a (scheduledSourcesRef s1)) as [|x rest] eqn:E;
        [reflexivity|]. exfalso.
      assert (x ∈ set_delete a (scheduledSourcesRef s1)) as Hx
        by (rewrite E; apply list_elem_of_here).
      apply elem_of_set_delete in Hx as [Hx Hxa].
      apply run_ended_sources in Hx as [Hx Hl'].
      apply Hall, elem_of_app in Hx as [Hx|Hx]; [contradiction|].
      apply list_elem_of_singleton in Hx. contradiction. }
    pose proof (onended_run a s1) as Hr.
    destruct (onended a s1) as [[s2 t2] o2]. cbn [fst].
    injection Hr as -> _ _. cbv zeta. rewrite Hempty. cbn. split; reflexivity.
  - intros source other s Hin Hne s'. subst s'.
    rewrite onended_run. unfold state_of. cbn [fst]. cbv zeta.
    assert (other ∈ set_delete source (scheduledSourcesRef s)) as Hother
      by (apply elem_of_set_delete; split; assumption).
    case_bool_decide as Hlen.
    + exfalso. destruct (set_delete source (scheduledSourcesRef s));
        [inversion Hother|discriminate].
    + cbn. split; [reflexivity|]. split; [exact Hother|].
      rewrite elem_of_set_delete. intros [_ H]. apply H. reflexivity.
Qed.

(** ** The transcript as a log *)

Lemma stable_log_snoc init m :
  stable_log (init ++ [m]) = if isFinal_truthy m then init ++ [m] else init.
Proof.
  unfold stable_log. rewrite last_snoc, slice_0_m1_snoc. reflexivity.
Qed.

Lemma stable_log_prefix l : stable_log l `prefix_of` l.
Proof.
  destruct l as [|x l'] using rev_ind; [reflexivity|].
  rewrite stable_log_snoc. case_match; [reflexivity|].
  apply prefix_app_r. reflexivity.
Qed.

Lemma mergeDelta_stable clock r tx l :
  stable_log l `prefix_of` stable_log (mergeDelta clock r tx l).
Proof.
  destruct l as [|m init _] using rev_ind; [apply prefix_nil|].
  unfold mergeDelta. rewrite last_snoc, slice_0_m1_snoc.
  unfold open_with_role.
  destruct (bool_decide (role m = r) && negb (isFinal_truthy m)) eqn:E.
  - apply andb_true_iff in E as [_ E]. apply negb_true_iff in E.
    rewrite !stable_log_snoc.
    change (isFinal_truthy (with_text m (text m +:+ tx))) with (isFinal_truthy m).
    rewrite E. reflexivity.
  - rewrite (stable_log_snoc (init ++ [m])). cbn [isFinal_truthy newEntry isFinal].
    apply stable_log_prefix.
Qed.

Lemma transcriptionUpdater_stable clock i o l :
  stable_log l `prefix_of` stable_log (transcriptionUpdater clock i o l).
Proof.
  unfold transcriptionUpdater.
  repeat case_match; first [apply mergeDelta_stable|reflexivity].
Qed.

Lemma turnCompleteUpdater_stable l :
  stable_log l `prefix_of` stable_log (turnCompleteUpdater l).
Proof.
  destruct l as [|m init _] using rev_ind; [reflexivity|].
  unfold turnCompleteUpdater. rewrite last_snoc, slice_0_m1_snoc.
  destruct (isFinal_truthy m) eqn:E; cbn [negb]; [reflexivity|].
  rewrite !stable_log_snoc, E. cbn. apply prefix_app_r. reflexivity.
Qed.

Lemma interruptedUpdater_stable l :
  stable_log l `prefix_of` stable_log (interruptedUpdater l).
Proof.
  destruct l as [|m init _] using rev_ind; [reflexivity|].
  unfold interruptedUpdater. rewrite last_snoc, slice_0_m1_snoc.
  destruct (negb (isFinal_truthy m) && bool_decide (role m = model)) eqn:E;
    [|reflexivity].
  apply andb_true_iff in E as [E _]. apply negb_true_iff in E.
  rewrite !stable_log_snoc, E. cbn. apply prefix_app_r. reflexivity.
Qed.

Lemma log_after_stable clock sc l :
  stable_log l `prefix_of` stable_log (log_after clock sc l).
Proof.
  unfold log_after. cbv zeta.
  set (l1 := if _ || _ then _ else l).
  assert (stable_log l `prefix_of` stable_log l1) as H1
    by (unfold l1; case_match;
        [apply transcriptionUpdater_stable|reflexivity]).
  set (l2 := if turnComplete sc then _ else l1).
  assert (stable_log l1 `prefix_of` stable_log l2) as H2
    by (unfold l2; case_match; [apply turnCompleteUpdater_stable|reflexivity]).
  etransitivity; [exact H1|]. etransitivity; [exact H2|].
  case_match; [apply interruptedUpdater_stable|reflexivity].
Qed.

Lemma handle_stable_log e s :
  no_connect e = true ->
  stable_log (messages s)
    `prefix_of` stable_log (messages (state_of (handle decode stop_throws e s))).
Proof.
  intros He. pose proof (handle_state_cases e s) as H. cbv zeta in H.
  destruct e as [env| | |p clock message| | |source|p level base64Data];
    try discriminate; try (rewrite H; reflexivity).
  - rewrite H, message_phase_messages.
    case_match; [apply log_after_stable|reflexivity].
  - rewrite H. cbv zeta. case_match; reflexivity.
Qed.

Lemma run_stable_log es s :
  Forall (fun e => no_connect e = true) es ->
  stable_log (messages s)
    `prefix_of` stable_log (messages (run decode stop_throws es s).1).
Proof.
  intros Hes. revert s. induction Hes as [|e es He Hes IH]; intros s;
    [reflexivity|].
  rewrite run_state_cons.
  etransitivity; [apply handle_stable_log, He|apply IH].
Qed.

(** X11. The transcript is a log whose history is never rewritten: over
    any sequence of events without a new [connect] (messages, teardowns,
    errors included), every entry but an open last one keeps its place
    and its content, and later entries only come after it.  In
    particular, once the last entry is final the whole current log is a
    prefix of every later log. *)
Theorem transcript_history_kept es (s : State) :
  Forall (fun e => no_connect e = true) es ->
  stable_log (messages s) `prefix_of` messages (run decode stop_throws es s).1 /\
  (forall m, last (messages s) = Some m -> isFinal_truthy m = true ->
     messages s `prefix_of` messages (run decode stop_throws es s).1).
Proof.
  intros Hes.
  assert (stable_log (messages s)
            `prefix_of` messages (run decode stop_throws es s).1) as H.
  { etransitivity; [apply run_stable_log, Hes|apply stable_log_prefix]. }
  split; [exact H|].
  intros m Hl Hf. unfold stable_log in H. rewrite Hl, Hf in H. exact H.
Qed.

Lemma append_nonempty_l (a b : string) : a <> "" -> a +:+ b <> "".
Proof. destruct a; [congruence|discriminate]. Qed.

Lemma texts_nonempty_slice l : texts_nonempty l -> texts_nonempty (slice_0_m1 l).
Proof. apply Forall_take. Qed.

Lemma texts_nonempty_last l m :
  texts_nonempty l -> last l = Some m -> text m <> "".
Proof.
  intros Hl Hm. apply last_Some in Hm as (l' & ->).
  apply Forall_app in Hl as [_ Hl]. inversion Hl; assumption.
Qed.

Lemma mergeDelta_nonempty clock r tx l :
  tx <> "" -> texts_nonempty l -> texts_nonempty (mergeDelta clock r tx l).
Proof.
  intros Htx Hl. unfold mergeDelta.
  destruct (last l) as [m|] eqn:Hm.
  - case_match.
    + apply Forall_app. split; [apply texts_nonempty_slice, Hl|].
      constructor; [|constructor]. cbn.
      apply append_nonempty_l. eapply texts_nonempty_last; eassumption.
    + apply Forall_app. split; [exact Hl|]. constructor; [exact Htx|constructor].
  - apply Forall_app. split; [exact Hl|]. constructor; [exact Htx|constructor].
Qed.

Lemma log_after_nonempty clock sc l :
  texts_nonempty l -> texts_nonempty (log_after clock sc l).
Proof.
  intros Hl. unfold log_after. cbv zeta.
  set (l1 := if _ || _ then _ else l).
  assert (texts_nonempty l1) as H1.
  { unfold l1. case_match; [|exact Hl]. unfold transcriptionUpdater.
    destruct (truthy (inputTranscription sc ≫= tx_text)) as [i|] eqn:Ei.
    - apply mergeDelta_nonempty; [|exact Hl].
      apply truthy_Some_nonempty in Ei. tauto.
    - destruct (truthy (outputTranscription sc ≫= tx_text)) as [o|] eqn:Eo;
        [|exact Hl].
      apply mergeDelta_nonempty; [|exact Hl].
      apply truthy_Some_nonempty in Eo. tauto. }
  set (l2 := if turnComplete sc then _ else l1).
  assert (texts_nonempty l2) as H2.
  { unfold l2. case_match; [|exact H1]. unfold turnCompleteUpdater.
    destruct (last l1) as [m|] eqn:Hm; [|exact H1].
    case_match; [|exact H1].
    apply Forall_app. split; [apply texts_nonempty_slice, H1|].
    constructor; [|constructor]. cbn.
    eapply texts_nonempty_last; eassumption. }
  case_match; [|exact H2]. unfold interruptedUpdater.
  destruct (last l2) as [m|] eqn:Hm; [|exact H2].
  case_match; [|exact H2].
  apply Forall_app. split; [apply texts_nonempty_slice, H2|].
  constructor; [|constructor]. cbn.
  apply append_nonempty_l. eapply texts_nonempty_last; eassumption.
Qed.

Lemma handle_texts_nonempty e s :
  texts_nonempty (messages s) ->
  texts_nonempty (messages (state_of (handle decode stop_throws e s))).
Proof.
  intros Hs. pose proof (handle_state_cases e s) as H. cbv zeta in H.
  destruct e as [env| | |p clock message| | |source|p level base64Data];
    try (rewrite H; exact Hs).
  - clear H. cbn [handle].
    destruct (connect_cases env s)
      as [(k & st & _ & _ & ->)|(_ & sb & tb & e & _ & Hmsg & ->)].
    + constructor.
    + unfold state_of. cbn [fst].
      change (messages (torn_down (set_error (Some init_failed_message) sb)))
        with (messages sb).
      rewrite Hmsg. constructor.
  - rewrite H, message_phase_messages.
    case_match; [apply log_after_nonempty|]; exact Hs.
  - rewrite H. cbv zeta. case_match; exact Hs.
Qed.

(** X12. No entry of the transcript ever has an empty text: an entry is
    created only for a fragment that is not empty, and texts only grow.
    Starting from a transcript without empty entries (such as the empty
    one), this holds after every sequence of events. *)
Theorem transcript_texts_nonempty es (s : State) :
  texts_nonempty (messages s) ->
  texts_nonempty (messages (run decode stop_throws es s).1).
Proof.
  intros Hs.
  apply (run_invariant (fun s => texts_nonempty (messages s)) (fun _ => true));
    [| |exact Hs].
  - intros e s0 _. apply handle_texts_nonempty.
  - apply Forall_true. reflexivity.
Qed.

(** ** Scheduling against the clock *)

Lemma audio_phase_not_in_past clock message s :
  Forall (fun wd => (currentTime clock <= wd.1)%Q)
    (starts (audio_phase decode clock message s).2).
Proof.
  unfold audio_phase. repeat case_match; cbn; repeat constructor.
  cbn. apply snap_ge_now.
Qed.

(** X13. A segment is never scheduled before the reading of the output
    clock taken by the handler that schedules it.  And playback is
    gap-free while the clock has not passed the cursor: when a decodable
    payload follows another one (no interruption in between) and the
    clock reading of the second handler is not after the end of the first
    segment, the second segment starts exactly where the first ends. *)
Theorem segments_back_to_back :
  (forall p clock message (s : State),
     Forall (fun wd => (currentTime clock <= wd.1)%Q)
       (starts (trace_of (onmessage decode stop_throws p clock message s)))) /\
  (forall p1 p2 clock1 clock2 m1 m2 b1 b2 buf1 buf2 ctx (s : State),
     outputContextRef s = Some ctx ->
     truthy (base64Audio_of m1) = Some b1 -> decode b1 = Some buf1 ->
     interrupted_of m1 = false ->
     truthy (base64Audio_of m2) = Some b2 -> decode b2 = Some buf2 ->
     let start1 := snap (nextStartTimeRef s) (currentTime clock1) in
     (currentTime clock2 <= start1 + duration buf1)%Q ->
     let r1 := onmessage decode stop_throws p1 clock1 m1 s in
     let r2 := onmessage decode stop_throws p2 clock2 m2 (state_of r1) in
     starts (trace_of r1) = [(start1, duration buf1)] /\
     starts (trace_of r2) = [((start1 + duration buf1)%Q, duration buf2)]).
Proof.
  split.
  - intros p clock message s. rewrite onmessage_run. unfold trace_of.
    cbn [fst snd]. rewrite message_phase_starts.
    apply audio_phase_not_in_past.
  - intros p1 p2 clock1 clock2 m1 m2 b1 b2 buf1 buf2 ctx s
      Hctx Hb1 Hd1 Hi1 Hb2 Hd2 start1 Hclock r1 r2.
    assert (outputContextRef (state_of r1) = Some ctx) as Hctx1.
    { subst r1. rewrite onmessage_run. unfold state_of. cbn [fst].
      pose proof (message_phase_frame p1 clock1 m1 s) as (_ & _ & Hr & _).
      unfold resources in Hr. congruence. }
    split.
    + subst r1. eapply onmessage_starts_decoded; eassumption.
    + subst r2.
      rewrite (onmessage_starts_decoded decode stop_throws p2 clock2 m2 b2 ctx
                 buf2 (state_of r1) Hb2 Hctx1 Hd2).
      subst r1.
      rewrite (onmessage_cursor_decoded decode stop_throws p1 clock1 m1 b1 ctx
                 buf1 s Hb1 Hctx Hd1 Hi1).
      fold start1. rewrite (proj2 (snap_spec _ _) Hclock). reflexivity.
Qed.

(** ** The declared tool and the validation of its argument *)

Lemma message_phase_acks_tools p clock message s :
  acks (message_phase decode p clock message s).2
  = acks (toolCalls_effects p (calls_of message)).
Proof.
  unfold message_phase.
  destruct (interrupted_of message); cbn [snd];
    rewrite !acks_app, ?acks_stops,
      (proj1 (audio_phase_no_acks decode _ _ _)), !app_nil_r; reflexivity.
Qed.

Lemma toolCalls_effects_unnamed p fcs :
  Forall (fun fc => fc_name fc <> Some "setTeachingMode") fcs ->
  toolCalls_effects p fcs = [] /\
  forall m, modes_after fcs m = m.
Proof.
  induction 1 as [|fc fcs Hfc Hfcs [IH1 IH2]]; [split; reflexivity|].
  assert (names_mode_tool fc = false) as Hn
    by (unfold names_mode_tool; apply bool_decide_eq_false_2, Hfc).
  split.
  - unfold toolCalls_effects in *. cbn [mbind list_bind].
    rewrite IH1, Hn. reflexivity.
  - intros m. unfold modes_after in *. cbn [foldl]. unfold apply_call at 2.
    rewrite Hn. apply IH2.
Qed.

(** X14. Calls that name another tool than [setTeachingMode] are ignored
    altogether: the mode stays as it is, the observer is not notified,
    and no tool result is sent for them, so their caller gets no
    answer. *)
Theorem other_tools_ignored p clock message tc (s : State) :
  toolCall message = Some tc ->
  Forall (fun fc => fc_name fc <> Some "setTeachingMode") (functionCalls tc) ->
  let r := onmessage decode stop_throws p clock message s in
  outcome_of r = Return tt /\
  acks (trace_of r) = [] /\
  mode_changes (trace_of r) = [] /\
  currentMode (state_of r) = currentMode s.
Proof.
  intros Htc Hnames r. subst r.
  rewrite onmessage_run. unfold state_of, trace_of, outcome_of. cbn [fst snd].
  rewrite message_phase_acks_tools, message_phase_mode_changes,
    message_phase_currentMode.
  unfold calls_of. rewrite Htc.
  destruct (toolCalls_effects_unnamed p _ Hnames) as [Heff Hmode].
  rewrite Heff, Hmode. unfold expected_mode_changes.
  split; [reflexivity|]. split; [reflexivity|]. split; [|reflexivity].
  clear Heff Hmode. induction Hnames as [|fc fcs Hfc Hfcs IH]; [reflexivity|].
  cbn [List.filter].
  assert (names_mode_tool fc = false) as ->
    by (unfold names_mode_tool; apply bool_decide_eq_false_2, Hfc).
  exact IH.
Qed.

Lemma declaredCall_run sess clock fid v s :
  let r := onmessage decode stop_throws (Fulfilled (Some sess)) clock
             (toolCallMessage [declaredCall fid v]) s in
  currentMode (state_of r)
  = default (currentMode s) (TeachingMode_of_value v) /\
  acks (trace_of r) = [(fid, Some "setTeachingMode", "Mode updated")] /\
  mode_changes (trace_of r)
  = (if TeachingMode_of_value v is Some m then [m] else []) /\
  isConnected (state_of r) = isConnected s.
Proof.
  cbv zeta. rewrite onmessage_run. unfold state_of, trace_of. cbn [fst snd].
  rewrite message_phase_acks, message_phase_mode_changes,
    message_phase_currentMode.
  rewrite (proj1 (message_phase_frame _ _ _ _)).
  unfold calls_of, toolCallMessage, declaredCall. cbn [toolCall functionCalls].
  unfold modes_after, expected_acks, expected_mode_changes, apply_call,
    requested_mode, names_mode_tool.
  cbn [foldl List.filter fc_name fc_args fc_id fd_name setTeachingModeTool].
  rewrite (bool_decide_eq_true_2 _ eq_refl).
  cbn [fmap list_fmap omap list_omap fc_name fc_args fc_id].
  rewrite lookup_singleton_eq. cbn [mbind option_bind].
  repeat split.
Qed.

(** X15. The name the hook declares for the tool is the name the message
    handler looks for, and every value the declaration offers for [mode]
    is recognized by the handler: such a call is always applied (the
    mode becomes the member with that value, never Idle), notified and
    acknowledged.  The handler also accepts the value of Idle, which the
    declaration does not offer: such a call puts the mode to Idle while
    the session stays connected. *)
Theorem declared_modes_are_applied :
  (forall v, v ∈ fd_mode_enum setTeachingModeTool ->
     exists m, v = TeachingMode_value m /\ m <> IDLE /\
       forall sess clock fid (s : State),
         let r := onmessage decode stop_throws (Fulfilled (Some sess)) clock
                    (toolCallMessage [declaredCall fid v]) s in
         currentMode (state_of r) = m /\
         mode_changes (trace_of r) = [m] /\
         acks (trace_of r) = [(fid, Some "setTeachingMode", "Mode updated")]) /\
  (TeachingMode_value IDLE ∉ fd_mode_enum setTeachingModeTool) /\
  (forall sess clock fid (s : State),
     let r := onmessage decode stop_throws (Fulfilled (Some sess)) clock
                (toolCallMessage [declaredCall fid (TeachingMode_value IDLE)]) s in
     currentMode (state_of r) = IDLE /\
     isConnected (state_of r) = isConnected s).
Proof.
  split; [|split].
  - intros v Hv. cbn [fd_mode_enum setTeachingModeTool] in Hv.
    assert (exists m, v = TeachingMode_value m /\ m <> IDLE) as (m & -> & Hm).
    { repeat (apply elem_of_cons in Hv as [->|Hv];
              [eexists; split; [reflexivity|discriminate]|]).
      inversion Hv. }
    exists m. split; [reflexivity|]. split; [exact Hm|].
    intros sess clock fid s.
    pose proof (declaredCall_run sess clock fid (TeachingMode_value m) s)
      as (H1 & H2 & H3 & _). cbv zeta.
    rewrite (proj2 (TeachingMode_of_value_Some _ m) eq_refl) in H1, H3.
    split; [exact H1|]. split; [exact H3|exact H2].
  - cbn [fd_mode_enum setTeachingModeTool]. intros Hin.
    repeat (apply elem_of_cons in Hin as [Hin|Hin]; [discriminate|]).
    inversion Hin.
  - intros sess clock fid s.
    pose proof (declaredCall_run sess clock fid (TeachingMode_value IDLE) s)
      as (H1 & _ & _ & H4). cbv zeta. split; [exact H1|exact H4].
Qed.

End Further.

(** ** Colours of the modes *)

(** X16. The bar colour of the visualizer tells the three active modes
    apart and is the gray default exactly for Idle among the members of
    [TeachingMode], and for every string that is not the value of a
    member: the string literals the visualizer switches on are the values
    of the enum.  The badge colour of the application also differs from
    mode to mode. *)
Theorem mode_colours_distinct :
  (forall m, getBarColor (TeachingMode_value m) = "bg-gray-400" <-> m = IDLE) /\
  (forall m1 m2,
     getBarColor (TeachingMode_value m1) = getBarColor (TeachingMode_value m2) ->
     m1 = m2) /\
  (forall v, v ∉ TeachingMode_values -> getBarColor v = "bg-gray-400") /\
  (forall m1 m2, getModeColor m1 = getModeColor m2 -> m1 = m2).
Proof.
  split; [|split; [|split]].
  - intros m. destruct m; cbn; split; intros H; try reflexivity; discriminate.
  - intros m1 m2. destruct m1, m2; cbn; intros H; try reflexivity; discriminate.
  - intros v Hv. unfold getBarColor.
    assert (forall m, v <> TeachingMode_value m) as Hne.
    { intros m ->. apply Hv. unfold TeachingMode_values.
      apply list_elem_of_fmap. exists m. split; [reflexivity|].
      destruct m; unfold TeachingMode_members; set_solver. }
    destruct (String.eqb_spec v "Conversation Mode") as [E|_];
      [destruct (Hne CONVERSATION E)|].
    destruct (String.eqb_spec v "Correction Mode") as [E|_];
      [destruct (Hne CORRECTION E)|].
    destruct (String.eqb_spec v "Explanation Mode") as [E|_];
      [destruct (Hne EXPLANATION E)|].
    reflexivity.
  - intros m1 m2. destruct m1, m2; cbn; intros H; try reflexivity; discriminate.
Qed.

(** ** Playback around an interruption *)

Section Interruption.

Variable decode : string -> option AudioBuffer.
Variable stop_throws : SourceId -> bool.

(** X17. A decodable payload carried by the interrupted message itself
    is started and stopped by the same handler: it is scheduled at the
    cursor, then [stop()] is called on it with the other segments, and
    the handler ends with nothing in flight and the cursor at zero.
    After an interruption the next decodable payload therefore starts at
    the reading of the output clock, not at the old cursor. *)
Theorem playback_restarts_after_interruption :
  (forall p clock message b64 ctx buf (s : State),
     outputContextRef s = Some ctx ->
     truthy (base64Audio_of message) = Some b64 -> decode b64 = Some buf ->
     interrupted_of message = true ->
     let r := onmessage decode stop_throws p clock message s in
     starts (trace_of r)
     = [(snap (nextStartTimeRef s) (currentTime clock), duration buf)] /\
     SourceStop (nextSourceId s) ∈ trace_of r /\
     scheduledSourcesRef (state_of r) = [] /\
     nextStartTimeRef (state_of r) = 0%Q /\
     isSpeaking (state_of r) = false) /\
  (forall p1 p2 clock1 clock2 m1 m2 b2 ctx buf (s : State),
     outputContextRef s = Some ctx ->
     interrupted_of m1 = true ->
     truthy (base64Audio_of m2) = Some b2 -> decode b2 = Some buf ->
     (0 < currentTime clock2)%Q ->
     let r1 := onmessage decode stop_throws p1 clock1 m1 s in
     let r2 := onmessage decode stop_throws p2 clock2 m2 (state_of r1) in
     starts (trace_of r2) = [(currentTime clock2, duration buf)]).
Proof.
  split.
  - intros p clock message b64 ctx buf s Hctx Hb Hd Hi r. subst r.
    split; [eapply onmessage_starts_decoded; eassumption|].
    rewrite onmessage_run. unfold state_of, trace_of. cbn [fst snd].
    unfold message_phase. rewrite Hi. cbn [fst snd].
    split; [|repeat split].
    pose proof (after_content_frame clock message (calls_of message) s)
      as (_ & _ & _ & Hres & _ & _ & Hid).
    set (s2 := after_content _ _ _ _) in *.
    assert (outputContextRef s2 = Some ctx) as Hctx2
      by (unfold resources in Hres; congruence).
    destruct (audio_phase_decoded decode clock message b64 ctx buf s2 Hb Hctx2 Hd)
      as (_ & _ & Hin & _).
    rewrite !elem_of_app. right; right.
    apply list_elem_of_fmap. exists (nextSourceId s2).
    split; [rewrite Hid; reflexivity|exact Hin].
  - intros p1 p2 clock1 clock2 m1 m2 b2 ctx buf s Hctx Hi Hb Hd Hpos r1 r2.
    assert (outputContextRef (state_of r1) = Some ctx) as Hctx1.
    { subst r1. rewrite onmessage_run. unfold state_of. cbn [fst].
      pose proof (message_phase_session decode p1 clock1 m1 s) as (_ & _ & Hr).
      unfold resources in Hr. congruence. }
    assert (nextStartTimeRef (state_of r1) = 0%Q) as Hcur.
    { subst r1. rewrite onmessage_run. unfold state_of, message_phase.
      rewrite Hi. reflexivity. }
    subst r2.
    rewrite (onmessage_starts_decoded decode stop_throws p2 clock2 m2 b2 ctx
               buf (state_of r1) Hb Hctx1 Hd).
    rewrite Hcur, (proj1 (snap_spec _ _) Hpos). reflexivity.
Qed.

End Interruption.

(** ** The further properties on sample inputs *)

(** A second [connect] on a hook that already holds a session with two
    segments in flight. *)
Lemma connect_success_witness :
  let r := connect always_throws sample_env speaking_state in
  credential sample_env = Some "key" /\
  getUserMedia sample_env = Some (mkMediaStream [0%nat]) /\
  outcome_of r = Return tt /\
  trace_of r
  = [NewAudioContext (mkAudioContext 16000);
     NewAudioContext (mkAudioContext 24000); GetUserMedia; LiveConnect] /\
  messages (state_of r) = [] /\
  isConnected (state_of r) = true /\
  scheduledSourcesRef (state_of r) = [0%nat; 1%nat].
Proof.
  cbv zeta.
  pose proof (connect_success always_throws sample_env "key"
    (mkMediaStream [0%nat]) speaking_state eq_refl eq_refl)
    as (H1 & H2 & _ & _ & _ & H6 & H7 & _ & _ & _ & H11 & _).
  split_all; first [assumption|reflexivity].
Defined.


(** Two segments scheduled on a fresh session, one of them ended. *)
Lemma speaking_covers_flight_kept_witness :
  speaking_covers_flight initialState /\
  speaking_covers_flight
    (run decode_payload always_throws
       [Connect sample_env; OnOpen;
        OnMessage sample_promise (sample_clock 1) (audioMessage "AAABAP9/");
        OnMessage sample_promise (sample_clock 1) (audioMessage "AAABAP9/");
        OnEnded 0%nat]
       initialState).1.
Proof.
  assert (speaking_covers_flight initialState) as H
    by (intros Hne; exfalso; apply Hne; reflexivity).
  split; [exact H|].
  exact (speaking_covers_flight_kept decode_payload always_throws _ _ H).
Defined.

(** A session whose transport never opens. *)
Lemma connected_only_by_open_witness :
  let es := [Connect sample_env;
             OnMessage sample_promise (sample_clock 1) (deltaMessage user "Hi");
             OnError] in
  Forall (fun e => not_open e = true) es /\
  isConnected initialState = false /\
  isConnected (run decode_payload always_throws es initialState).1 = false.
Proof.
  cbv zeta.
  assert (Forall (fun e => not_open e = true)
    [Connect sample_env;
     OnMessage sample_promise (sample_clock 1) (deltaMessage user "Hi");
     OnError]) as Hes by (repeat constructor).
  split; [exact Hes|]. split; [reflexivity|].
  exact (connected_only_by_open decode_payload always_throws _ initialState
           Hes eq_refl).
Defined.

(** Audio messages that arrive after a teardown. *)
Lemma no_playback_without_output_witness :
  let s := state_of (disconnect always_throws speaking_state) in
  let es := [OnMessage sample_promise (sample_clock 1) (audioMessage "AAABAP9/");
             OnEnded 0%nat;
             OnMessage sample_promise (sample_clock 2) (audioMessage "AAABAP9/")] in
  Forall (fun e => no_connect e = true) es /\
  outputContextRef s = None /\
  starts (run decode_payload always_throws es s).2 = [].
Proof.
  cbv zeta.
  assert (Forall (fun e => no_connect e = true)
    [OnMessage sample_promise (sample_clock 1) (audioMessage "AAABAP9/");
     OnEnded 0%nat;
     OnMessage sample_promise (sample_clock 2) (audioMessage "AAABAP9/")])
    as Hes by (repeat constructor).
  split; [exact Hes|]. split; [reflexivity|].
  exact (proj1 (no_playback_without_output decode_payload always_throws _
                  (state_of (disconnect always_throws speaking_state))
                  Hes eq_refl)).
Defined.

(** The two segments in flight end, the second one first, with a stale
    end in between. *)
Lemma ended_segments_drain_witness :
  let s' := (run decode_payload always_throws
               (OnEnded <$> [1%nat; 7%nat; 0%nat]) speaking_state).1 in
  scheduledSourcesRef speaking_state = [0%nat; 1%nat] /\
  isSpeaking speaking_state = true /\
  scheduledSourcesRef s' = [] /\ isSpeaking s' = false.
Proof.
  cbv zeta. split; [reflexivity|]. split; [reflexivity|].
  refine (proj1 (ended_segments_drain decode_payload always_throws)
            [1%nat; 7%nat; 0%nat] speaking_state _ _).
  - discriminate.
  - intros x Hx. change (x ∈ [0%nat; 1%nat]) in Hx.
    apply elem_of_cons in Hx as [->|Hx];
      [do 2 apply list_elem_of_further; apply list_elem_of_here|].
    apply elem_of_cons in Hx as [->|Hx]; [apply list_elem_of_here|].
    inversion Hx.
Defined.

(** A transcript whose last entry is final, then a model turn and a
    teardown. *)
Lemma transcript_history_kept_witness :
  let final_entry := mkChatMessage "1-user" user "Hi there" 1 (Some true) in
  let s := set_messages [final_entry] connected_state in
  let es := [OnMessage sample_promise (sample_clock 0) (deltaMessage model "Hello");
             OnMessage sample_promise (sample_clock 0) interruptedSignal;
             Disconnect] in
  Forall (fun e => no_connect e = true) es /\
  last (messages s) = Some final_entry /\
  isFinal_truthy final_entry = true /\
  messages s `prefix_of` messages (run decode_payload always_throws es s).1.
Proof.
  cbv zeta.
  assert (Forall (fun e => no_connect e = true)
    [OnMessage sample_promise (sample_clock 0) (deltaMessage model "Hello");
     OnMessage sample_promise (sample_clock 0) interruptedSignal;
     Disconnect]) as Hes by (repeat constructor).
  split; [exact Hes|]. split; [reflexivity|]. split; [reflexivity|].
  exact (proj2 (transcript_history_kept decode_payload always_throws _
                  (set_messages [mkChatMessage "1-user" user "Hi there" 1
                                   (Some true)] connected_state) Hes)
           _ eq_refl eq_refl).
Defined.

(** An empty fragment, a fragment and an interruption on a fresh
    session. *)
Lemma transcript_texts_nonempty_witness :
  texts_nonempty (messages connected_state) /\
  texts_nonempty
    (messages (run decode_payload always_throws
       [OnMessage sample_promise (sample_clock 0) (deltaMessage model "");
        OnMessage sample_promise (sample_clock 0) (deltaMessage model "Hi");
        OnMessage sample_promise (sample_clock 0) interruptedSignal]
       connected_state).1).
Proof.
  assert (texts_nonempty (messages connected_state)) as H by constructor.
  split; [exact H|].
  exact (transcript_texts_nonempty decode_payload always_throws _ _ H).
Defined.

(** Two payloads of three samples, the second handled while the first is
    still playing. *)
Lemma segments_back_to_back_witness :
  let r1 := onmessage decode_payload always_throws sample_promise
              (sample_clock (1 # 2)) (audioMessage "AAABAP9/") connected_state in
  let r2 := onmessage decode_payload always_throws sample_promise
              (sample_clock (1 # 4)) (audioMessage "AAABAP9/") (state_of r1) in
  (currentTime (sample_clock (1 # 4)) <= (1 # 2) + (3 # 24000))%Q /\
  starts (trace_of r1) = [(1 # 2, 3 # 24000)] /\
  starts (trace_of r2) = [(24006 # 48000, 3 # 24000)].
Proof.
  cbv zeta.
  assert (currentTime (sample_clock (1 # 4)) <= (1 # 2) + (3 # 24000))%Q
    as Hclock by (vm_compute; discriminate).
  split; [exact Hclock|].
  exact (proj2 (segments_back_to_back decode_payload always_throws)
           sample_promise sample_promise (sample_clock (1 # 2))
           (sample_clock (1 # 4)) (audioMessage "AAABAP9/")
           (audioMessage "AAABAP9/") "AAABAP9/" "AAABAP9/" _ _ _
           connected_state eq_refl eq_refl eq_refl eq_refl eq_refl eq_refl
           Hclock).
Defined.

(** A call of a tool the hook does not know. *)
Lemma other_tools_ignored_witness :
  let fc := {| fc_id := Some "call-9"; fc_name := Some "openDoor";
               fc_args := {[ "mode" := "Correction Mode" ]} |} in
  let r := onmessage decode_payload always_throws sample_promise
             (sample_clock 0) (toolCallMessage [fc]) connected_state in
  Forall (fun fc => fc_name fc <> Some "setTeachingMode") [fc] /\
  acks (trace_of r) = [] /\
  mode_changes (trace_of r) = [] /\
  currentMode (state_of r) = CONVERSATION.
Proof.
  cbv zeta.
  assert (Forall (fun fc => fc_name fc <> Some "setTeachingMode")
    [{| fc_id := Some "call-9"; fc_name := Some "openDoor";
        fc_args := {[ "mode" := "Correction Mode" ]} |}]) as Hn
    by (repeat constructor; discriminate).
  split; [exact Hn|].
  exact (proj2 (other_tools_ignored decode_payload always_throws
    sample_promise (sample_clock 0) (toolCallMessage _) _ connected_state
    eq_refl Hn)).
Defined.

(** An interruption while two segments play, then a payload handled at
    clock reading 7. *)
Lemma playback_restarts_after_interruption_witness :
  let r1 := onmessage decode_payload always_throws sample_promise
              (sample_clock 6) interruptedSignal speaking_state in
  let r2 := onmessage decode_payload always_throws sample_promise
              (sample_clock 7) (audioMessage "AAABAP9/") (state_of r1) in
  nextStartTimeRef speaking_state = 5%Q /\
  (0 < currentTime (sample_clock 7))%Q /\
  starts (trace_of r2) = [(7%Q, 3 # 24000)].
Proof.
  cbv zeta.
  assert (0 < currentTime (sample_clock 7))%Q as Hpos by reflexivity.
  split; [reflexivity|]. split; [exact Hpos|].
  exact (proj2 (playback_restarts_after_interruption decode_payload
                  always_throws)
           sample_promise sample_promise (sample_clock 6) (sample_clock 7)
           interruptedSignal (audioMessage "AAABAP9/") "AAABAP9/" _ _
           speaking_state eq_refl eq_refl eq_refl eq_refl Hpos).
Defined.
